(** * NanoGPT Copilot provider: model catalogue service

    A shallow embedding of [src/types.ts] and [src/nanogptModels.ts]
    (retry wrapper, endpoint fetch, endpoint fallback, API key handling and
    the conversion of catalogue entries to chat-model descriptors), of the
    settings functions of [src/config.ts] and of the "Set API Key" action
    of [src/extension.ts], followed by the properties of the specification
    that concern them and by further properties of the code.

    Conventions of the embedding.
    - JavaScript numbers are modelled by [Z]: every number the service
      computes with (attempt counters, delays, token limits, HTTP status
      codes) is an integer, and the arithmetic is exact below 2^53.
    - Strings are [string], read as UTF-8; template literals become [+:+]
      chains, and [String(n)] of an integer is [pretty n] (its decimal
      writing).
    - An [async] function is a state transformer over [World] returning an
      [Outcome]: resolved with a value, or rejected with a thrown value.
    - Everything the host does for the service (network, timers, message
      boxes, input boxes, secret storage) is recorded in one [trace], in
      program order; [console] output is diagnostic only and is left out. *)

From Stdlib Require Import ZArith String Ascii List Lia.
From stdpp Require Import base option list gmap strings pretty.

Open Scope string_scope.
Open Scope Z_scope.
Open Scope list_scope.

(* ================================================================== *)
(** ** JSON documents, as [response.json()] delivers them *)
(* ================================================================== *)

(** An object holds each key once, as a parsed JavaScript object does. *)
Local Unset Elimination Schemes.
Inductive Json : Type :=
| JNull
| JBool (b : bool)
| JNumber (n : Z)
| JString (s : string)
| JArray (items : list Json)
| JObject (fields : list (string * Json)).
Local Set Elimination Schemes.

Fixpoint assoc (k : string) (fields : list (string * Json)) : option Json :=
  match fields with
  | [] => None
  | (k', v) :: rest => if String.eqb k k' then Some v else assoc k rest
  end.

(* ================================================================== *)
(** ** The fragment of zod the schemas use *)
(* ================================================================== *)

Module Zod.

(** A parse either succeeds with the typed value or fails; of zod's issue
    list the model keeps the path of the first issue, in schema order. *)
Inductive Result (A : Type) : Type :=
| Ok (a : A)
| Fail (path : list string).
Arguments Ok {A} a.
Arguments Fail {A} path.

Definition bind {A B} (r : Result A) (k : A -> Result B) : Result B :=
  match r with
  | Ok a => k a
  | Fail p => Fail p
  end.

Definition map {A B} (f : A -> B) (r : Result A) : Result B :=
  bind r (fun a => Ok (f a)).

(** A schema reads the value found at [path]; [None] is a missing key
    ([undefined]). *)
Definition Schema (A : Type) : Type := list string -> option Json -> Result A.

Definition string_ : Schema string := fun path v =>
  match v with Some (JString s) => Ok s | _ => Fail path end.

Definition number : Schema Z := fun path v =>
  match v with Some (JNumber n) => Ok n | _ => Fail path end.

Definition boolean : Schema bool := fun path v =>
  match v with Some (JBool b) => Ok b | _ => Fail path end.

(** [z.literal(a).or(z.literal(b))...]: one of a fixed vocabulary. *)
Definition literals {A} (vocabulary : list (string * A)) : Schema A :=
  fun path v =>
    match v with
    | Some (JString s) =>
        match List.find (fun e => String.eqb s (fst e)) vocabulary with
        | Some e => Ok (snd e)
        | None => Fail path
        end
    | _ => Fail path
    end.

Definition optional {A} (inner : Schema A) : Schema (option A) :=
  fun path v =>
    match v with
    | None => Ok None
    | Some _ => map Some (inner path v)
    end.

Definition nullable {A} (inner : Schema A) : Schema (option A) :=
  fun path v =>
    match v with
    | Some JNull => Ok None
    | _ => map Some (inner path v)
    end.

Definition default {A} (inner : Schema A) (d : A) : Schema A :=
  fun path v =>
    match v with
    | None => Ok d
    | Some _ => inner path v
    end.

Fixpoint items {A} (inner : Schema A) (path : list string) (i : nat)
    (l : list Json) : Result (list A) :=
  match l with
  | [] => Ok []
  | x :: rest =>
      bind (inner (path ++ [pretty i]) (Some x)) (fun a =>
      bind (items inner path (S i) rest) (fun r => Ok (a :: r)))
  end.

Definition array {A} (inner : Schema A) : Schema (list A) :=
  fun path v =>
    match v with
    | Some (JArray l) => items inner path 0%nat l
    | _ => Fail path
    end.

(** [z.object({...})]: the body receives the field list and reads its
    keys in schema order; unknown keys are stripped. *)
Definition object {A} (body : list string -> list (string * Json) -> Result A)
    : Schema A :=
  fun path v =>
    match v with
    | Some (JObject fields) => body path fields
    | _ => Fail path
    end.

Definition field {A} (inner : Schema A) (path : list string)
    (fields : list (string * Json)) (key : string) : Result A :=
  inner (path ++ [key]) (assoc key fields).

(** [err.message] of a failed parse. zod prints its issue list as JSON;
    the model prints the offending path, dot separated. *)
Definition message (path : list string) : string :=
  "Invalid input at " +:+ String.concat "." path.

Definition parse {A} (schema : Schema A) (raw : Json) : Result A :=
  schema [] (Some raw).

End Zod.

Notation "x <-z r ;; k" := (Zod.bind r (fun x => k))
  (at level 100, r at next level, right associativity, only parsing).

(* ================================================================== *)
(** ** [types.ts] *)
(* ================================================================== *)

Inductive ModelFeature : Type :=
| tools | json_mode | structured_outputs | web_search | reasoning.

Definition ModelFeatureSpec : Zod.Schema ModelFeature :=
  Zod.literals
    [("tools", tools); ("json_mode", json_mode);
     ("structured_outputs", structured_outputs);
     ("web_search", web_search); ("reasoning", reasoning)].

Inductive SamplingParameter : Type :=
| temperature | top_p | top_k | repetition_penalty | frequency_penalty
| presence_penalty | stop | seed.

Definition SamplingParameterSpec : Zod.Schema SamplingParameter :=
  Zod.literals
    [("temperature", temperature); ("top_p", top_p); ("top_k", top_k);
     ("repetition_penalty", repetition_penalty);
     ("frequency_penalty", frequency_penalty);
     ("presence_penalty", presence_penalty); ("stop", stop); ("seed", seed)].

Record Pricing : Type := {
  prompt : option Z;
  completion : option Z;
  image : option Z;
  request : option Z
}.

(** [number | null | undefined] fields are [option (option Z)]: [None] is a
    missing key and [Some None] is [null]. *)
Record NanoGPTModelDetails : Type := {
  id : string;
  name : string;
  description : option string;
  object : string;
  created : option Z;
  owned_by : option string;
  vision : option bool;
  context_length : option (option Z);
  max_output_length : option (option Z);
  pricing : option Pricing;
  supported_features : option (list ModelFeature);
  supported_sampling_parameters : option (list SamplingParameter)
}.

Definition PricingSchema : Zod.Schema Pricing :=
  Zod.object (fun path f =>
    p <-z Zod.field (Zod.optional Zod.number) path f "prompt" ;;
    c <-z Zod.field (Zod.optional Zod.number) path f "completion" ;;
    i <-z Zod.field (Zod.optional Zod.number) path f "image" ;;
    r <-z Zod.field (Zod.optional Zod.number) path f "request" ;;
    Zod.Ok {| prompt := p; completion := c; image := i; request := r |}).

Definition NanoGPTModelDetailsSchema : Zod.Schema NanoGPTModelDetails :=
  Zod.object (fun path f =>
    v_id <-z Zod.field Zod.string_ path f "id" ;;
    v_name <-z Zod.field Zod.string_ path f "name" ;;
    v_description <-z Zod.field (Zod.optional Zod.string_) path f "description" ;;
    v_object <-z Zod.field (Zod.default Zod.string_ "model") path f "object" ;;
    v_created <-z Zod.field (Zod.optional Zod.number) path f "created" ;;
    v_owned_by <-z Zod.field (Zod.optional Zod.string_) path f "owned_by" ;;
    v_vision <-z Zod.field (Zod.optional Zod.boolean) path f "vision" ;;
    v_context <-z
      Zod.field (Zod.optional (Zod.nullable Zod.number)) path f "context_length" ;;
    v_output <-z
      Zod.field (Zod.optional (Zod.nullable Zod.number)) path f "max_output_length" ;;
    v_pricing <-z Zod.field (Zod.optional PricingSchema) path f "pricing" ;;
    v_features <-z
      Zod.field (Zod.optional (Zod.array ModelFeatureSpec)) path f
        "supported_features" ;;
    v_sampling <-z
      Zod.field (Zod.optional (Zod.array SamplingParameterSpec)) path f
        "supported_sampling_parameters" ;;
    Zod.Ok {| id := v_id; name := v_name; description := v_description;
              object := v_object; created := v_created;
              owned_by := v_owned_by; vision := v_vision;
              context_length := v_context; max_output_length := v_output;
              pricing := v_pricing; supported_features := v_features;
              supported_sampling_parameters := v_sampling |}).

Record NanoGPTModelsResponse : Type := {
  response_object : string;
  data : list NanoGPTModelDetails
}.

Definition NanoGPTModelsResponseSchema : Zod.Schema NanoGPTModelsResponse :=
  Zod.object (fun path f =>
    o <-z Zod.field Zod.string_ path f "object" ;;
    d <-z Zod.field (Zod.array NanoGPTModelDetailsSchema) path f "data" ;;
    Zod.Ok {| response_object := o; data := d |}).

Inductive ModelType : Type := all | premium | subscription.

Definition ModelType_eqb (a b : ModelType) : bool :=
  match a, b with
  | all, all | premium, premium | subscription, subscription => true
  | _, _ => false
  end.

(** The string a [ModelType] is at run time. *)
Definition ModelType_string (t : ModelType) : string :=
  match t with
  | all => "all"
  | premium => "premium"
  | subscription => "subscription"
  end.

Record CategorizedModel : Type := {
  details : NanoGPTModelDetails;
  endpoint : string;
  category : ModelType
}.

Module MODEL_ENDPOINTS.
Definition all : string := "/models?detailed=true".
Definition premium : string :=
  "https://nano-gpt.com/api/paid/v1/models?detailed=true".
Definition subscription : string :=
  "https://nano-gpt.com/api/subscription/v1/models?detailed=true".
End MODEL_ENDPOINTS.

Record EndpointConfig : Type := {
  url : string;
  config_category : ModelType;
  displayName : string;
  config_description : string
}.

Record RetryConfig : Type := {
  maxAttempts : Z;
  delayMs : Z;
  backoffMultiplier : Z
}.

(* ================================================================== *)
(** ** The host: network, timers, message boxes, secrets, settings *)
(* ================================================================== *)

(** What [catch] receives: an [Error] with its message, or some other value
    (of which only [String(value)] is ever used). *)
Inductive Thrown : Type :=
| ErrorObj (message : string)
| NonError (asString : string).

(** The value [undefined], thrown. *)
Definition thrown_undefined : Thrown := NonError "undefined".

Inductive Outcome (A : Type) : Type :=
| Resolved (a : A)
| Rejected (e : Thrown).
Arguments Resolved {A} a.
Arguments Rejected {A} e.

(** An HTTP response. [bodyJson] is what [response.json()] gives: the parsed
    document, or the message of the error it rejects with. *)
Record Response : Type := {
  status : Z;
  statusText : string;
  bodyText : string;
  bodyJson : string + Json
}.

(** [response.ok]: the status is in the range 200-299. *)
Definition ok (r : Response) : bool :=
  (200 <=? status r) && (status r <=? 299).

Inductive FetchReply : Type :=
| FetchRejects (reason : string)
| FetchResolves (r : Response).

Inductive Event : Type :=
| EvFetch (url authorization userAgent : string)
| EvTimeout (delay : Z)
| EvInformationMessage (text : string)
| EvErrorMessage (text : string)
| EvInputBox
| EvSecretStore (key value : string).

(** [network] and [inputBox] are the environment's answers; they may depend
    on everything that happened before ([trace]). [inputBox] answers [None]
    when the user dismisses the box. [modelTypes] is the setting
    [nanogpt.modelTypes]; [secrets] is the secret storage the service is
    handed. *)
Record World : Type := {
  network : list Event -> string -> FetchReply;
  inputBox : list Event -> option string;
  modelTypes : option ModelType;
  secrets : gmap string string;
  trace : list Event
}.

Definition record (e : Event) (w : World) : World :=
  {| network := network w; inputBox := inputBox w; modelTypes := modelTypes w;
     secrets := secrets w; trace := trace w ++ [e] |}.

Definition Async (A : Type) : Type := World -> Outcome A * World.

Definition resolve {A} (a : A) : Async A := fun w => (Resolved a, w).
Definition throw {A} (e : Thrown) : Async A := fun w => (Rejected e, w).

(** [await]: continue with the value, or propagate the rejection. *)
Definition await {A B} (m : Async A) (k : A -> Async B) : Async B :=
  fun w =>
    match m w with
    | (Resolved a, w') => k a w'
    | (Rejected e, w') => (Rejected e, w')
    end.

(** [try { body } catch (error) { handler }]. *)
Definition try_catch {A} (body : Async A) (handler : Thrown -> Async A)
    : Async A :=
  fun w =>
    match body w with
    | (Resolved a, w') => (Resolved a, w')
    | (Rejected e, w') => handler e w'
    end.

Notation "'let*' x ':=' m 'in' k" := (await m (fun x => k))
  (at level 10, x name, m at level 100, k at level 200, only parsing).
Notation "m ';;;' k" := (await m (fun _ => k))
  (at level 100, right associativity, only parsing).

(** The host calls. *)
Definition fetch (url authorization userAgent : string) : Async Response :=
  fun w =>
    let w' := record (EvFetch url authorization userAgent) w in
    match network w (trace w) url with
    | FetchRejects reason => (Rejected (ErrorObj reason), w')
    | FetchResolves r => (Resolved r, w')
    end.

Definition setTimeout (delay : Z) : Async unit :=
  fun w => (Resolved tt, record (EvTimeout delay) w).

Definition showInformationMessage (text : string) : Async unit :=
  fun w => (Resolved tt, record (EvInformationMessage text) w).

Definition showErrorMessage (text : string) : Async unit :=
  fun w => (Resolved tt, record (EvErrorMessage text) w).

Definition showInputBox : Async (option string) :=
  fun w => (Resolved (inputBox w (trace w)), record EvInputBox w).

Definition secrets_get (key : string) : Async (option string) :=
  fun w => (Resolved (secrets w !! key), w).

Definition secrets_store (key value : string) : Async unit :=
  fun w =>
    (Resolved tt,
     record (EvSecretStore key value)
       {| network := network w; inputBox := inputBox w;
          modelTypes := modelTypes w;
          secrets := <[key := value]> (secrets w); trace := trace w |}).

(** JavaScript truthiness of a [string | undefined]. *)
Definition truthy (s : option string) : bool :=
  match s with
  | Some s => negb (String.eqb s "")
  | None => false
  end.

(** [String.prototype.trim]. A [string] is read as the UTF-8 encoding of
    the JavaScript string. The code points stripped are the white space
    and line terminators of ECMAScript: U+0009 to U+000D, U+0020, U+00A0,
    U+1680, U+2000 to U+200A, U+2028, U+2029, U+202F, U+205F, U+3000 and
    U+FEFF. *)

(** The one-byte ones: U+0009 to U+000D and U+0020. *)
Definition whiteSpace1 (b1 : N) : bool :=
  (((9 <=? b1) && (b1 <=? 13)) || (b1 =? 32))%N.

(** The two-byte one: U+00A0 is C2 A0. *)
Definition whiteSpace2 (b1 b2 : N) : bool :=
  ((b1 =? 194) && (b2 =? 160))%N.

(** The three-byte ones: U+1680 is E1 9A 80; U+2000 to U+200A are E2 80 80
    to E2 80 8A; U+2028, U+2029 and U+202F are E2 80 A8, E2 80 A9 and
    E2 80 AF; U+205F is E2 81 9F; U+3000 is E3 80 80; U+FEFF is EF BB BF. *)
Definition whiteSpace3 (b1 b2 b3 : N) : bool :=
  (((b1 =? 225) && (b2 =? 154) && (b3 =? 128))
   || ((b1 =? 226) && (b2 =? 128)
       && (((128 <=? b3) && (b3 <=? 138))
           || (b3 =? 168) || (b3 =? 169) || (b3 =? 175)))
   || ((b1 =? 226) && (b2 =? 129) && (b3 =? 159))
   || ((b1 =? 227) && (b2 =? 128) && (b3 =? 128))
   || ((b1 =? 239) && (b2 =? 187) && (b3 =? 191)))%N.

(** The string without the white space code point it starts with, when it
    starts with one. *)
Definition dropWhiteSpace (s : string) : option string :=
  match s with
  | EmptyString => None
  | String c1 r1 =>
      if whiteSpace1 (N_of_ascii c1) then Some r1
      else
        match r1 with
        | EmptyString => None
        | String c2 r2 =>
            if whiteSpace2 (N_of_ascii c1) (N_of_ascii c2) then Some r2
            else
              match r2 with
              | EmptyString => None
              | String c3 r3 =>
                  if whiteSpace3 (N_of_ascii c1) (N_of_ascii c2)
                       (N_of_ascii c3)
                  then Some r3
                  else None
              end
        end
  end.

(** Leading white space dropped, one code point a step; [fuel] bounds the
    steps, and the length of the string is enough of it. *)
Fixpoint trimStartSteps (fuel : nat) (s : string) : string :=
  match fuel with
  | O => s
  | S fuel' =>
      match dropWhiteSpace s with
      | Some rest => trimStartSteps fuel' rest
      | None => s
      end
  end.

Definition trimStart (s : string) : string :=
  trimStartSteps (String.length s) s.

(** Trailing white space dropped: the string is cut where what remains is
    white space only. *)
Fixpoint trimEnd (s : string) : string :=
  match s with
  | EmptyString => EmptyString
  | String c rest =>
      if String.eqb (trimStart s) "" then EmptyString
      else String c (trimEnd rest)
  end.

Definition trim (s : string) : string := trimEnd (trimStart s).

(* ================================================================== *)
(** ** [nanogptModels.ts]: constants *)
(* ================================================================== *)

Definition BASE_URL : string := "https://nano-gpt.com/api/v1".
Definition DEFAULT_CONTEXT_LENGTH : Z := 128000.
Definition DEFAULT_MAX_OUTPUT_TOKENS : Z := 16000.
Definition MAX_TOOLS : Z := 128.

Definition RETRY_CONFIG : RetryConfig :=
  {| maxAttempts := 3; delayMs := 1000; backoffMultiplier := 2 |}.

Definition ENDPOINT_CONFIGS (t : ModelType) : EndpointConfig :=
  match t with
  | all =>
      {| url := BASE_URL +:+ MODEL_ENDPOINTS.all;
         config_category := all;
         displayName := "All Models";
         config_description := "Access to all available NanoGPT models" |}
  | premium =>
      {| url := MODEL_ENDPOINTS.premium;
         config_category := premium;
         displayName := "Premium Models";
         config_description := "Access to premium NanoGPT models" |}
  | subscription =>
      {| url := MODEL_ENDPOINTS.subscription;
         config_category := subscription;
         displayName := "Subscription Models";
         config_description := "Access to subscription-based NanoGPT models" |}
  end.

(** The key order of the [ENDPOINT_CONFIGS] object literal. *)
Definition ENDPOINT_ORDER : list ModelType := [all; premium; subscription].

Record Capabilities : Type := {
  toolCalling : bool;
  imageInput : bool
}.

Definition DEFAULT_CAPABILITIES : Capabilities :=
  {| toolCalling := true; imageInput := false |}.

Record LanguageModelChatInformation : Type := {
  info_id : string;
  info_name : string;
  tooltip : string;
  detail : string;
  family : string;
  version : string;
  maxInputTokens : Z;
  maxOutputTokens : Z;
  capabilities : Capabilities
}.

(* ================================================================== *)
(** ** [retryWithBackoff] *)
(* ================================================================== *)

(** [error instanceof Error ? error : new Error(String(error))] *)
Definition asError (e : Thrown) : Thrown :=
  match e with
  | ErrorObj m => ErrorObj m
  | NonError s => ErrorObj s
  end.

(** [throw lastError!]: [lastError] is still [undefined] when no attempt
    was made. *)
Definition throwLast {T} (lastError : option Thrown) : Async T :=
  throw (default thrown_undefined lastError).

Definition backoffDelay (config : RetryConfig) (attempt : Z) : Z :=
  delayMs config * backoffMultiplier config ^ (attempt - 1).

(** The [for] loop, [fuel] bounding the iterations still to run. *)
Fixpoint retryLoop {T} (operation : Async T) (config : RetryConfig)
    (fuel : nat) (attempt : Z) (lastError : option Thrown) : Async T :=
  match fuel with
  | O => throwLast lastError
  | S fuel' =>
      if attempt <=? maxAttempts config then
        try_catch operation (fun error =>
          let lastError := Some (asError error) in
          if attempt =? maxAttempts config then throwLast lastError
          else
            let delay := backoffDelay config attempt in
            setTimeout delay ;;;
            retryLoop operation config fuel' (attempt + 1) lastError)
      else throwLast lastError
  end.

(** The loop starts at attempt 1 and runs at most [maxAttempts] times. *)
Definition retryWithBackoff {T} (operation : Async T) (config : RetryConfig)
    : Async T :=
  retryLoop operation config (Z.to_nat (maxAttempts config)) 1 None.

(* ================================================================== *)
(** ** [fetchModelsFromEndpoint] *)
(* ================================================================== *)

Record FetchResult : Type := {
  models : list CategorizedModel;
  result_endpoint : string
}.

(** The ways one attempt fails, one per [throw] site of the operation (the
    first two being rejections of [fetch] and of [response.json()]). *)
Inductive FetchFailure : Type :=
| TransportFailure (reason : string)
| HttpFailure (status : Z) (statusText errorText : string)
| BodyFailure (reason : string)
| ValidationFailure (path : list string)
| EmptyFailure.

Definition failureMessage (f : FetchFailure) : string :=
  match f with
  | TransportFailure reason => reason
  | HttpFailure st text errorText =>
      "HTTP " +:+ pretty st +:+ ": " +:+ text +:+ " - " +:+ errorText
  | BodyFailure reason => reason
  | ValidationFailure path =>
      "API response validation failed: " +:+ Zod.message path
  | EmptyFailure => "No models data found in API response"
  end.

(** What the operation makes of a response it received. *)
Definition readResponse (endpoint : EndpointConfig) (response : Response)
    : FetchFailure + FetchResult :=
  if negb (ok response) then
    inl (HttpFailure (status response) (statusText response) (bodyText response))
  else
    match bodyJson response with
    | inl reason => inl (BodyFailure reason)
    | inr rawData =>
        match Zod.parse NanoGPTModelsResponseSchema rawData with
        | Zod.Fail path => inl (ValidationFailure path)
        | Zod.Ok parsed =>
            match data parsed with
            | [] => inl EmptyFailure
            | _ =>
                let categorizedModels :=
                  List.map (fun model =>
                    {| details := model; endpoint := url endpoint;
                       category := config_category endpoint |})
                    (data parsed) in
                inr {| models := categorizedModels;
                       result_endpoint := url endpoint |}
            end
        end
    end.

Definition readReply (endpoint : EndpointConfig) (reply : FetchReply)
    : FetchFailure + FetchResult :=
  match reply with
  | FetchRejects reason => inl (TransportFailure reason)
  | FetchResolves response => readResponse endpoint response
  end.

(** The arrow function handed to [retryWithBackoff]. *)
Definition fetchOperation (apiKey : string) (endpoint : EndpointConfig)
    (userAgent : string) : Async FetchResult :=
  let* response := fetch (url endpoint) ("Bearer " +:+ apiKey) userAgent in
  match readResponse endpoint response with
  | inl failure => throw (ErrorObj (failureMessage failure))
  | inr result => resolve result
  end.

Definition fetchModelsFromEndpoint (apiKey : string) (endpoint : EndpointConfig)
    (userAgent : string) : Async FetchResult :=
  retryWithBackoff (fetchOperation apiKey endpoint userAgent) RETRY_CONFIG.

(* ================================================================== *)
(** ** [NanoGPTModelsService] *)
(* ================================================================== *)

Definition API_KEY : string := "nanogpt.apiKey".

(** [getCurrentModelType]: the setting, or ["all"]. *)
Definition getCurrentModelType (w : World) : ModelType :=
  default all (modelTypes w).

Definition ensureApiKey (silent : bool) : Async (option string) :=
  let* apiKey := secrets_get API_KEY in
  if negb (truthy apiKey) && negb silent then
    let* entered := showInputBox in
    if truthy entered && truthy (trim <$> entered) then
      let apiKey := default "" (trim <$> entered) in
      secrets_store API_KEY apiKey ;;;
      resolve (Some apiKey)
    else resolve apiKey
  else resolve apiKey.

(** [error instanceof Error ? error.message : fallback] *)
Definition messageOr (fallback : string) (e : Thrown) : string :=
  match e with
  | ErrorObj m => m
  | NonError _ => fallback
  end.

(** The [for ... of availableFallbacks] loop; [None] when it runs to its
    end without returning. *)
Fixpoint tryFallbacks (apiKey userAgent : string)
    (availableFallbacks : list ModelType) : Async (option FetchResult) :=
  match availableFallbacks with
  | [] => resolve None
  | fallbackType :: rest =>
      let fallbackEndpoint := ENDPOINT_CONFIGS fallbackType in
      try_catch
        (let* result :=
           fetchModelsFromEndpoint apiKey fallbackEndpoint userAgent in
         showInformationMessage
           ("Primary endpoint unavailable. Using "
            +:+ displayName fallbackEndpoint +:+ " instead.") ;;;
         resolve (Some result))
        (fun fallbackError => tryFallbacks apiKey userAgent rest)
  end.

Definition fallbackEndpoints (modelType : ModelType) : list ModelType :=
  (if negb (ModelType_eqb modelType all) then [all] else [])
  ++ (if negb (ModelType_eqb modelType premium) then [premium] else [])
  ++ (if negb (ModelType_eqb modelType subscription) then [subscription] else []).

Definition availableFallbacks (modelType : ModelType) : list ModelType :=
  List.filter (fun type => negb (ModelType_eqb type modelType))
    (fallbackEndpoints modelType).

Definition fetchModels (userAgent apiKey : string) : Async FetchResult :=
  fun w =>
    let modelType := getCurrentModelType w in
    let primaryEndpoint := ENDPOINT_CONFIGS modelType in
    try_catch
      (fetchModelsFromEndpoint apiKey primaryEndpoint userAgent)
      (fun error =>
         let* found := tryFallbacks apiKey userAgent (availableFallbacks modelType) in
         match found with
         | Some result => resolve result
         | None =>
             let errorMessage := messageOr "Unknown error" error in
             let userMessage :=
               "Failed to fetch models from all NanoGPT endpoints. Last error: "
               +:+ errorMessage
               +:+ ". Please check your API key and internet connection." in
             showErrorMessage userMessage ;;;
             throw (ErrorObj
                      ("All NanoGPT endpoints failed. Primary: "
                       +:+ displayName primaryEndpoint
                       +:+ ". Last error: " +:+ errorMessage))
         end)
      w.

(** [a ?? b] on a [number | null | undefined]. *)
Definition nullish (a : option (option Z)) (b : Z) : Z :=
  match a with
  | Some (Some n) => n
  | _ => b
  end.

(** The body of the per-model [try]: [None] is the [continue] of an entry
    without id, [Some] the descriptor pushed. *)
Definition modelInfo (m : CategorizedModel)
    : Outcome (option LanguageModelChatInformation) :=
  let d := details m in
  if String.eqb (id d) "" then Resolved None
  else
    let capabilities :=
      {| toolCalling := true; imageInput := default false (vision d) |} in
    (* [m.category] is a non-empty string: the bracketed form is taken *)
    let categoryInfo := " [" +:+ ModelType_string (category m) +:+ "]" in
    let ownerInfo :=
      if truthy (owned_by d) then "Owned by " +:+ default "" (owned_by d)
      else "NanoGPT Model" in
    Resolved (Some
      {| info_id := id d;
         info_name := name d;
         tooltip := ownerInfo +:+ categoryInfo;
         detail := "NanoGPT.com";
         family := "nanogpt";
         version := "1.0.0";
         maxInputTokens := nullish (context_length d) DEFAULT_CONTEXT_LENGTH;
         maxOutputTokens := nullish (max_output_length d) DEFAULT_MAX_OUTPUT_TOKENS;
         capabilities := capabilities |}).

(** The body of the per-model [catch]: the basic descriptor. *)
Definition fallbackInfo (m : CategorizedModel)
    (infos : list LanguageModelChatInformation)
    : Outcome LanguageModelChatInformation :=
  let d := details m in
  let n := Z.of_nat (length infos) in
  Resolved
    {| info_id := if String.eqb (id d) "" then "model-" +:+ pretty n else id d;
       info_name :=
         if String.eqb (name d) "" then "Model " +:+ pretty (n + 1) else name d;
       tooltip := "NanoGPT Model" +:+ " [" +:+ ModelType_string (category m) +:+ "]";
       detail := "NanoGPT.com";
       family := "nanogpt";
       version := "1.0.0";
       maxInputTokens := DEFAULT_CONTEXT_LENGTH;
       maxOutputTokens := DEFAULT_MAX_OUTPUT_TOKENS;
       capabilities := DEFAULT_CAPABILITIES |}.

(** The [for (const m of models)] loop over the accumulator [infos]. *)
Fixpoint processModels (models : list CategorizedModel)
    (infos : list LanguageModelChatInformation)
    : list LanguageModelChatInformation :=
  match models with
  | [] => infos
  | m :: rest =>
      match modelInfo m with
      | Resolved None => processModels rest infos
      | Resolved (Some info) => processModels rest (infos ++ [info])
      | Rejected _ =>
          match fallbackInfo m infos with
          | Resolved info => processModels rest (infos ++ [info])
          | Rejected _ => processModels rest infos
          end
      end
  end.

Record CancellationToken : Type := {
  isCancellationRequested : bool
}.

Record Options : Type := {
  silent : bool
}.

(** The [try] around [fetchModels]: [inr models] falls through to the loop,
    [inl l] is the [return l] of the [catch]. *)
Definition loadModels (userAgent apiKey : string) (options : Options)
    : Async (list LanguageModelChatInformation + list CategorizedModel) :=
  try_catch
    (let* result := fetchModels userAgent apiKey in
     resolve (inr (models result)))
    (fun error =>
       (if negb (silent options) then
          let errorMessage := messageOr "Unknown error occurred" error in
          showInformationMessage
            ("Unable to load NanoGPT models: " +:+ errorMessage
             +:+ ". Please check your API key and try again.")
        else resolve tt) ;;;
       resolve (inl [])).

Definition prepareLanguageModelChatInformation (userAgent : string)
    (options : Options) (_token : CancellationToken)
    : Async (list LanguageModelChatInformation) :=
  let* apiKey := ensureApiKey (silent options) in
  if negb (truthy apiKey) then resolve []
  else
    let* loaded := loadModels userAgent (default "" apiKey) options in
    match loaded with
    | inl returned => resolve returned
    | inr models => resolve (processModels models [])
    end.

(* ================================================================== *)
(** ** The single-endpoint service ([src/nanogptModels.ts] before the
       endpoint categories were added), over the same schema *)
(* ================================================================== *)

Module Legacy.

(** Identical to the current [ensureApiKey]. *)
Definition ensureApiKey (silent : bool) : Async (option string) :=
  let* apiKey := secrets_get API_KEY in
  if negb (truthy apiKey) && negb silent then
    let* entered := showInputBox in
    if truthy entered && truthy (trim <$> entered) then
      let apiKey := default "" (trim <$> entered) in
      secrets_store API_KEY apiKey ;;;
      resolve (Some apiKey)
    else resolve apiKey
  else resolve apiKey.

(** One request, no retry; the outer [try/catch] rethrows whatever it
    catches. Both failure branches that inform the user do so before
    throwing. *)
Definition fetchModels (userAgent apiKey : string)
    : Async (list NanoGPTModelDetails) :=
  let* response :=
    fetch (BASE_URL +:+ "/models?detailed=true") ("Bearer " +:+ apiKey)
      userAgent in
  if negb (ok response) then
    let errorText := bodyText response in
    showInformationMessage
      ("Failed to fetch models from NanoGPT (" +:+ pretty (status response)
       +:+ "): "
       +:+ (if String.eqb (statusText response) "" then "Network error"
            else statusText response)
       +:+ ". Please check your API key and internet connection.") ;;;
    throw (ErrorObj
      ("Failed to fetch NanoGPT models: " +:+ pretty (status response)
       +:+ (if String.eqb (statusText response) "" then ""
            else " " +:+ statusText response)
       +:+ (if String.eqb errorText "" then ""
            else String (ascii_of_nat 10) errorText)))
  else
    match bodyJson response with
    | inl reason => throw (ErrorObj reason)
    | inr rawData =>
        match Zod.parse NanoGPTModelsResponseSchema rawData with
        | Zod.Fail path =>
            showInformationMessage
              "Failed to parse model data from NanoGPT API. The API response format may have changed. Please try again later." ;;;
            throw (ErrorObj
              ("Invalid API response format from NanoGPT: "
               +:+ Zod.message path))
        | Zod.Ok parsed =>
            match data parsed with
            | [] =>
                throw (ErrorObj
                  "No models data found in validated API response")
            | models => resolve models
            end
        end
    end.

Definition modelInfo (d : NanoGPTModelDetails)
    : Outcome (option LanguageModelChatInformation) :=
  if String.eqb (id d) "" then Resolved None
  else
    let capabilities :=
      {| toolCalling := true; imageInput := default false (vision d) |} in
    Resolved (Some
      {| info_id := id d;
         info_name := id d;
         tooltip :=
           if truthy (owned_by d) then "Owned by " +:+ default "" (owned_by d)
           else "NanoGPT Model";
         detail := "NanoGPT.com";
         family := "nanogpt";
         version := "1.0.0";
         maxInputTokens := nullish (context_length d) DEFAULT_CONTEXT_LENGTH;
         maxOutputTokens :=
           nullish (max_output_length d) DEFAULT_MAX_OUTPUT_TOKENS;
         capabilities := capabilities |}).

Definition fallbackInfo (d : NanoGPTModelDetails)
    (infos : list LanguageModelChatInformation)
    : Outcome LanguageModelChatInformation :=
  let n := Z.of_nat (length infos) in
  Resolved
    {| info_id := if String.eqb (id d) "" then "model-" +:+ pretty n else id d;
       info_name :=
         if String.eqb (id d) "" then "Model " +:+ pretty (n + 1) else id d;
       tooltip := "NanoGPT Model";
       detail := "NanoGPT.com";
       family := "nanogpt";
       version := "1.0.0";
       maxInputTokens := DEFAULT_CONTEXT_LENGTH;
       maxOutputTokens := DEFAULT_MAX_OUTPUT_TOKENS;
       capabilities := DEFAULT_CAPABILITIES |}.

Fixpoint processModels (models : list NanoGPTModelDetails)
    (infos : list LanguageModelChatInformation)
    : list LanguageModelChatInformation :=
  match models with
  | [] => infos
  | m :: rest =>
      match modelInfo m with
      | Resolved None => processModels rest infos
      | Resolved (Some info) => processModels rest (infos ++ [info])
      | Rejected _ =>
          match fallbackInfo m infos with
          | Resolved info => processModels rest (infos ++ [info])
          | Rejected _ => processModels rest infos
          end
      end
  end.

Definition loadModels (userAgent apiKey : string) (options : Options)
    : Async (list LanguageModelChatInformation + list NanoGPTModelDetails) :=
  try_catch
    (let* models := fetchModels userAgent apiKey in
     resolve (inr models))
    (fun error =>
       (if negb (silent options) then
          let errorMessage := messageOr "Unknown error occurred" error in
          showInformationMessage
            ("Unable to load NanoGPT models: " +:+ errorMessage
             +:+ ". Please check your API key and try again.")
        else resolve tt) ;;;
       resolve (inl [])).

Definition prepareLanguageModelChatInformation (userAgent : string)
    (options : Options) (_token : CancellationToken)
    : Async (list LanguageModelChatInformation) :=
  let* apiKey := ensureApiKey (silent options) in
  if negb (truthy apiKey) then resolve []
  else
    let* loaded := loadModels userAgent (default "" apiKey) options in
    match loaded with
    | inl returned => resolve returned
    | inr models => resolve (processModels models [])
    end.

End Legacy.

(* ================================================================== *)
(** ** Feature composition *)
(* ================================================================== *)

(** The defaults of [NanoGPTConfigurationSchema] in [types.ts]. *)
Module NanoGPTConfigurationDefaults.
Definition reasoning_enabled : bool := true.
Definition reasoning_defaultEffort : string := "medium".
Definition memory_enabled : bool := true.
Definition memory_defaultDays : Z := 30.
Definition search_enabled : bool := true.
Definition search_defaultMode : string := "standard".
Definition byok_enabled : bool := false.
Definition byok_defaultProvider : string := "openai".
End NanoGPTConfigurationDefaults.

Module FeatureComposer.

(** Modelled from the spec: the FeatureToggleSnapshot of section 3; the
    request-building code that reads the toggles is not among the
    sources. Enumerated fields are strings, since [compose] validates
    them. *)
Record FeatureToggleSnapshot : Type := {
  reasoning_enabled : bool;
  reasoning_effort : string;
  memory_enabled : bool;
  memory_days : Z;
  search_enabled : bool;
  search_mode : string;
  byok_enabled : bool;
  byok_provider : string
}.

(** Modelled from the spec: the perCallOverride argument of [compose]
    (section 4.5), every field of the snapshot being optional in it. *)
Record PerCallOverride : Type := {
  o_reasoning_enabled : option bool;
  o_reasoning_effort : option string;
  o_memory_enabled : option bool;
  o_memory_days : option Z;
  o_search_enabled : option bool;
  o_search_mode : option string;
  o_byok_enabled : option bool;
  o_byok_provider : option string
}.

(** Modelled from the spec: a call without override ("absent override
    fields fall through to the snapshot"). *)
Definition noOverride : PerCallOverride :=
  {| o_reasoning_enabled := None; o_reasoning_effort := None;
     o_memory_enabled := None; o_memory_days := None;
     o_search_enabled := None; o_search_mode := None;
     o_byok_enabled := None; o_byok_provider := None |}.

(** Modelled from the spec: body fields of a ComposedRequest (section
    4.5): reasoning is [{enabled, effort}], BYOK is [{enabled, provider}]. *)
Inductive BodyField : Type :=
| ReasoningField (enabled : bool) (effort : string)
| ByokField (enabled : bool) (provider : string).

(** Modelled from the spec: the ComposedRequest of section 3; [suffix] is
    the base id with the suffix tokens appended, as the examples of
    section 8 write it. *)
Record ComposedRequest : Type := {
  baseId : string;
  suffix : string;
  headers : gmap string string;
  bodyFields : gmap string BodyField
}.

(** Modelled from the spec: "override fields, when present, take
    precedence over the snapshot's defaults field-by-field". *)
Definition merge (t : FeatureToggleSnapshot) (o : PerCallOverride)
    : FeatureToggleSnapshot :=
  {| reasoning_enabled := default (reasoning_enabled t) (o_reasoning_enabled o);
     reasoning_effort := default (reasoning_effort t) (o_reasoning_effort o);
     memory_enabled := default (memory_enabled t) (o_memory_enabled o);
     memory_days := default (memory_days t) (o_memory_days o);
     search_enabled := default (search_enabled t) (o_search_enabled o);
     search_mode := default (search_mode t) (o_search_mode o);
     byok_enabled := default (byok_enabled t) (o_byok_enabled o);
     byok_provider := default (byok_provider t) (o_byok_provider o) |}.

(** Modelled from the spec: membership in one of the enumerations of
    section 4.5. *)
Definition oneOf (s : string) (l : list string) : bool :=
  List.existsb (String.eqb s) l.

(** Modelled from the spec: the validation of section 4.5, "performed
    before any token is emitted"; the result names the offending field. *)
Definition validate (t : FeatureToggleSnapshot) : option string :=
  if negb ((1 <=? memory_days t) && (memory_days t <=? 365)) then
    Some "memory.days"
  else if negb (oneOf (reasoning_effort t) ["low"; "medium"; "high"]) then
    Some "reasoning.effort"
  else if negb (oneOf (search_mode t) ["standard"; "deep"]) then
    Some "search.mode"
  else if negb (oneOf (byok_provider t) ["openai"; "anthropic"; "google"]) then
    Some "byok.provider"
  else None.

(** Modelled from the spec: the search marker of section 4.5. *)
Definition searchToken (t : FeatureToggleSnapshot) : string :=
  if search_enabled t then
    if String.eqb (search_mode t) "standard" then ":online"
    else ":online/linkup-deep"
  else "".

(** Modelled from the spec: the memory marker of section 4.5; the
    platform default is the [memory.defaultDays] default of the
    configuration schema. *)
Definition memoryToken (t : FeatureToggleSnapshot) : string :=
  if memory_enabled t then
    if memory_days t =? NanoGPTConfigurationDefaults.memory_defaultDays
    then ":memory"
    else ":memory-" +:+ pretty (memory_days t)
  else "".

(** Modelled from the spec: [compose] of section 4.5. Search marker
    first, then memory marker; reasoning and BYOK go to the body and the
    headers; a validation failure gives no request. *)
Definition compose (base : string) (toggles : FeatureToggleSnapshot)
    (perCallOverride : PerCallOverride) : string + ComposedRequest :=
  let t := merge toggles perCallOverride in
  match validate t with
  | Some fieldPath => inl fieldPath
  | None =>
      let body0 : gmap string BodyField :=
        if reasoning_enabled t
        then {[ "reasoning" := ReasoningField true (reasoning_effort t) ]}
        else ∅ in
      let body1 :=
        if byok_enabled t
        then <[ "byok" := ByokField true (byok_provider t) ]> body0
        else body0 in
      let headers : gmap string string :=
        if byok_enabled t then {[ "x-use-byok" := "true" ]} else ∅ in
      inr {| baseId := base;
             suffix := base +:+ searchToken t +:+ memoryToken t;
             headers := headers;
             bodyFields := body1 |}
  end.

End FeatureComposer.

(* ================================================================== *)
(** ** Concrete hosts, for running the service *)
(* ================================================================== *)

Definition isFetch (e : Event) : bool :=
  match e with EvFetch _ _ _ => true | _ => false end.

(** The network requests made so far. *)
Definition fetches (tr : list Event) : list Event := List.filter isFetch tr.

Definition timeoutOf (e : Event) : option Z :=
  match e with EvTimeout d => Some d | _ => None end.

(** The delays of the timers started so far. *)
Definition timeouts (tr : list Event) : list Z := omap timeoutOf tr.

Definition isNotification (e : Event) : bool :=
  match e with
  | EvInformationMessage _ | EvErrorMessage _ => true
  | _ => false
  end.

(** The messages shown to the user so far. *)
Definition notifications (tr : list Event) : list Event :=
  List.filter isNotification tr.

(** A network that answers the n-th request with the n-th reply of a
    script, whatever the URL, and fails once the script is used up. *)
Definition scripted (replies : list FetchReply)
    : list Event -> string -> FetchReply :=
  fun tr _ => nth (length (fetches tr)) replies (FetchRejects "fetch failed").

(** A network whose answer depends on the URL only. *)
Definition byUrl (server : string -> FetchReply)
    : list Event -> string -> FetchReply :=
  fun _ url => server url.

Definition host (net : list Event -> string -> FetchReply)
    (apiKey : option string) (setting : option ModelType) : World :=
  {| network := net;
     inputBox := fun _ => None;
     modelTypes := setting;
     secrets := match apiKey with
                | Some k => {[ API_KEY := k ]}
                | None => ∅
                end;
     trace := [] |}.

Definition jsonResponse (st : Z) (text : string) (body : Json) : FetchReply :=
  FetchResolves
    {| status := st; statusText := text; bodyText := ""; bodyJson := inr body |}.

Definition errorResponse (st : Z) (text body : string) : FetchReply :=
  FetchResolves
    {| status := st; statusText := text; bodyText := body;
       bodyJson := inl "Unexpected token in JSON" |}.

Definition catalog (entries : list Json) : Json :=
  JObject [("object", JString "list"); ("data", JArray entries)].

Definition entry (model_id model_name : string) : Json :=
  JObject [("id", JString model_id); ("name", JString model_name);
           ("object", JString "model")].

(* ================================================================== *)
(** * Statements of the specification, and hosts to run them on *)
(* ================================================================== *)

(** The integers a double holds exactly. *)
Definition exactInteger (n : Z) : Prop := Z.abs n <= 2 ^ 53.

(** The retry policies on which the arithmetic of the loop, done by the
    code on doubles, is the exact arithmetic of the model: the three
    numbers are integers a double holds, and so are the powers and the
    delays the loop computes. *)
Definition exactPolicy (config : RetryConfig) : Prop :=
  exactInteger (maxAttempts config)
  /\ exactInteger (delayMs config)
  /\ exactInteger (backoffMultiplier config)
  /\ forall k,
       1 <= k < maxAttempts config ->
       exactInteger (backoffMultiplier config ^ (k - 1))
       /\ exactInteger (delayMs config * backoffMultiplier config ^ (k - 1)).

(** The world in which attempt [k] (counted from 1) starts, as the
    specification has it: attempt 1 starts in the world of the call, and
    between attempt [k] and attempt [k + 1] there is what attempt [k] did,
    then one suspension of [delayMs * backoffMultiplier ^ (k - 1)]. *)
Fixpoint worldBeforeAttempt {T} (operation : Async T) (config : RetryConfig)
    (w : World) (k : nat) : World :=
  match k with
  | O => w
  | S k' =>
      match k' with
      | O => w
      | S _ =>
          record
            (EvTimeout
               (delayMs config * backoffMultiplier config ^ (Z.of_nat k' - 1)))
            (snd (operation (worldBeforeAttempt operation config w k')))
      end
  end.

(** What the wrapper makes of the outcome of the attempt it ends on. *)
Definition finalOutcome {T} (o : Outcome T) : Outcome T :=
  match o with
  | Resolved v => Resolved v
  | Rejected e => Rejected (asError e)
  end.

(** The failure classes the specification calls non-transient: schema
    validation failures and empty-result failures. *)
Definition nonTransient (f : FetchFailure) : bool :=
  match f with
  | ValidationFailure _ | EmptyFailure => true
  | _ => false
  end.

(** The retry rule as the specification states it, for one call: if the
    first attempt fails with a non-transient failure, that failure is
    returned after this one attempt. *)
Definition returnsNonTransientAtOnce (apiKey : string)
    (endpoint : EndpointConfig) (userAgent : string) (w : World) : Prop :=
  forall f,
    readReply endpoint (network w (trace w) (url endpoint)) = inl f ->
    nonTransient f = true ->
    fetchModelsFromEndpoint apiKey endpoint userAgent w =
    (Rejected (ErrorObj (failureMessage f)),
     record (EvFetch (url endpoint) ("Bearer " +:+ apiKey) userAgent) w).

(** A server that always answers with a well-formed, empty catalogue. *)
Definition emptyCatalogHost : World :=
  host (byUrl (fun _ => jsonResponse 200 "OK" (catalog []))) (Some "k") None.

(** The resolution of the specification (section 4.3): the categories are
    attempted in the given order, each once through
    [fetchModelsFromEndpoint] and its retry budget, up to the first
    success. The result lists the failures met, in order, and the
    category that succeeded with its catalogue, if any. *)
Fixpoint attemptInOrder (apiKey userAgent : string)
    (categories : list ModelType) (w : World)
    : list Thrown * option (ModelType * FetchResult) * World :=
  match categories with
  | [] => ([], None, w)
  | c :: rest =>
      match fetchModelsFromEndpoint apiKey (ENDPOINT_CONFIGS c) userAgent w with
      | (Resolved result, w') => ([], Some (c, result), w')
      | (Rejected e, w') =>
          let '(failures, found, w'') :=
            attemptInOrder apiKey userAgent rest w' in
          (e :: failures, found, w'')
      end
  end.

(** The order of the specification: the preferred category, then the
    registry order without it. *)
Definition resolutionOrder (preferred : ModelType) : list ModelType :=
  preferred
  :: List.filter (fun c => negb (ModelType_eqb c preferred)) ENDPOINT_ORDER.

(** The message shown when a fallback category is used. *)
Definition fallbackNotice (c : ModelType) : Event :=
  EvInformationMessage
    ("Primary endpoint unavailable. Using "
     +:+ displayName (ENDPOINT_CONFIGS c) +:+ " instead.").

(** The message of the error thrown when every category failed. *)
Definition allFailedMessage (preferred : ModelType) (errorMessage : string)
    : string :=
  "All NanoGPT endpoints failed. Primary: "
  +:+ displayName (ENDPOINT_CONFIGS preferred)
  +:+ ". Last error: " +:+ errorMessage.

(** The message shown when every category failed. *)
Definition allFailedNotice (errorMessage : string) : Event :=
  EvErrorMessage
    ("Failed to fetch models from all NanoGPT endpoints. Last error: "
     +:+ errorMessage
     +:+ ". Please check your API key and internet connection.").

(** The aggregate error as the specification states it: from the error
    raised when every category fails, the preferred category's error and
    the ordered list of the subsequent failures can be read. *)
Definition carriesEveryFailure : Prop :=
  exists carried : Thrown -> Thrown * list Thrown,
    forall userAgent apiKey w first subsequent w',
      attemptInOrder apiKey userAgent
        (resolutionOrder (getCurrentModelType w)) w
      = (first :: subsequent, None, w') ->
      exists e w'',
        fetchModels userAgent apiKey w = (Rejected e, w'')
        /\ carried e = (first, subsequent).

(** Two servers that refuse the premium endpoint alike (401) and fail the
    other endpoints differently (500 or 503). *)
Definition refusingServer (fallbackStatus : Z) (fallbackText : string)
    : string -> FetchReply :=
  fun u =>
    if String.eqb u MODEL_ENDPOINTS.premium
    then errorResponse 401 "Unauthorized" "bad key"
    else errorResponse fallbackStatus fallbackText "".

(** The premium category is the preferred one. *)
Definition refusingHost (fallbackStatus : Z) (fallbackText : string) : World :=
  host (byUrl (refusingServer fallbackStatus fallbackText)) (Some "k")
    (Some premium).

(** A signal that is already active, and one that is not. *)
Definition cancelled : CancellationToken :=
  {| isCancellationRequested := true |}.

Definition notCancelled : CancellationToken :=
  {| isCancellationRequested := false |}.

(** The cancellation rule as the specification states it, for one call: a
    call entered with the signal active rejects (with a cancellation
    error), makes no request and shows no message. *)
Definition abortsWhenCancelled (userAgent : string) (options : Options)
    (w : World) : Prop :=
  forall token,
    isCancellationRequested token = true ->
    let run := prepareLanguageModelChatInformation userAgent options token w in
    (exists e, fst run = Rejected e)
    /\ fetches (trace (snd run)) = fetches (trace w)
    /\ notifications (trace (snd run)) = notifications (trace w).

(** A server with a one-model catalogue, and a stored key. *)
Definition oneModelHost : World :=
  host (scripted [jsonResponse 200 "OK" (catalog [entry "gpt-4o" "GPT-4o"])])
    (Some "k") None.

(** The descriptor the [try] body pushes for an entry, if any. *)
Definition pushed (m : CategorizedModel) : option LanguageModelChatInformation :=
  match modelInfo m with
  | Resolved o => o
  | Rejected _ => None
  end.

(** The entries the loop does not skip. *)
Definition hasId (m : CategorizedModel) : bool :=
  negb (String.eqb (id (details m)) "").

(** The same for the single-endpoint service. *)
Definition pushedLegacy (d : NanoGPTModelDetails)
    : option LanguageModelChatInformation :=
  match Legacy.modelInfo d with
  | Resolved o => o
  | Rejected _ => None
  end.

Definition hasIdLegacy (d : NanoGPTModelDetails) : bool :=
  negb (String.eqb (id d) "").

(** The normalisation rule as the specification states it, for one host
    with [apiKey] stored: whenever the fetch yields a validated catalogue,
    the call resolves with as many descriptors as the catalogue has
    entries. *)
Definition keepsEveryEntry (userAgent apiKey : string) (w : World) : Prop :=
  forall result w1,
    secrets w !! API_KEY = Some apiKey ->
    fetchModels userAgent apiKey w = (Resolved result, w1) ->
    exists infos w2,
      prepareLanguageModelChatInformation userAgent {| silent := true |}
        notCancelled w
      = (Resolved infos, w2)
      /\ length infos = length (models result).

(** A server whose catalogue has an entry with an empty id; the schema
    accepts it, [id] being any string. *)
Definition namelessEntryHost : World :=
  host (scripted
          [jsonResponse 200 "OK"
             (catalog [entry "gpt-4o" "GPT-4o"; entry "" "nameless"])])
    (Some "k") None.

(** The snapshot of the composition examples: search in standard mode and
    memory for [days] days. *)
Definition searchAndMemory (days : Z) : FeatureComposer.FeatureToggleSnapshot :=
  {| FeatureComposer.reasoning_enabled := false;
     FeatureComposer.reasoning_effort := "medium";
     FeatureComposer.memory_enabled := true;
     FeatureComposer.memory_days := days;
     FeatureComposer.search_enabled := true;
     FeatureComposer.search_mode := "standard";
     FeatureComposer.byok_enabled := false;
     FeatureComposer.byok_provider := "openai" |}.

(** The suffix of a composition, when there is one. *)
Definition suffixOf (r : string + FeatureComposer.ComposedRequest)
    : option string :=
  match r with
  | inr request => Some (FeatureComposer.suffix request)
  | inl _ => None
  end.

(* ================================================================== *)
(** * The rest of the code: settings, key command, settings schema *)
(* ================================================================== *)

(** ** [config.ts]: per-model temperatures *)

(** The setting [nanogpt.modelTemperatures] is a plain object used as a map
    from model ids to numbers, or is not set ([None]); the [gmap] holds its
    own properties. The numbers are only stored and read back, so their
    type is left open. A plain object also answers for the members it
    inherits from [Object.prototype]. *)
Definition objectPrototypeKeys : list string :=
  ["constructor"; "__defineGetter__"; "__defineSetter__"; "hasOwnProperty";
   "__lookupGetter__"; "__lookupSetter__"; "isPrototypeOf";
   "propertyIsEnumerable"; "toString"; "valueOf"; "__proto__";
   "toLocaleString"].

Definition inherited (key : string) : bool :=
  List.existsb (String.eqb key) objectPrototypeKeys.

Section Temperatures.

Context {Num : Type}.

(** What a property read gives: the number of an own property, the member
    of [Object.prototype] of that name, or [undefined]. *)
Inductive PropertyRead : Type :=
| ReadValue (t : Num)
| ReadInherited (key : string)
| ReadUndefined.

(** [object[key]] on a plain object. *)
Definition readProperty (object : gmap string Num) (key : string)
    : PropertyRead :=
  match object !! key with
  | Some t => ReadValue t
  | None => if inherited key then ReadInherited key else ReadUndefined
  end.

(** [object[key] = t], [t] a number: an own property is set, except that
    under the name [__proto__], unless the object has an own property of
    that name, the assignment goes to the prototype setter, which ignores
    a number. *)
Definition writeProperty (object : gmap string Num) (key : string) (t : Num)
    : gmap string Num :=
  if String.eqb key "__proto__" && negb (bool_decide (is_Some (object !! key)))
  then object
  else <[key := t]> object.

(** [temperatures?.[modelId]] *)
Definition getModelTemperature (setting : option (gmap string Num))
    (modelId : string) : PropertyRead :=
  match setting with
  | Some temperatures => readProperty temperatures modelId
  | None => ReadUndefined
  end.

(** The result is the value [config.update] writes to the setting: a copy
    of the own properties of the existing object (or of [{}]) with the key
    deleted or assigned. *)
Definition setModelTemperature (setting : option (gmap string Num))
    (modelId : string) (temperature : option Num)
    : option (gmap string Num) :=
  let existing := default ∅ setting in
  let temperatures := existing in
  Some match temperature with
       | None => delete modelId temperatures
       | Some t => writeProperty temperatures modelId t
       end.

End Temperatures.

(** ** [config.ts]: the model type *)

(** The labels of the quick pick of [configureModelTypes]. *)
Definition modelTypeLabel (t : ModelType) : string :=
  match t with
  | all => "All Models"
  | premium => "Premium Models"
  | subscription => "Subscription Models"
  end.

(** [config.update("modelTypes", value, Global)]; the setting is read back
    from where it is written (no workspace value overrides it). *)
Definition config_update_modelTypes (value : ModelType) : Async unit :=
  fun w =>
    (Resolved tt,
     {| network := network w; inputBox := inputBox w;
        modelTypes := Some value;
        secrets := secrets w; trace := trace w |}).

(** [configureModelTypes], given what the user picks in the quick pick
    ([None] when the pick is dismissed). *)
Definition configureModelTypes (selected : option ModelType) : Async unit :=
  match selected with
  | None => resolve tt
  | Some modelType =>
      config_update_modelTypes modelType ;;;
      let endpointInfo := ENDPOINT_CONFIGS modelType in
      showInformationMessage
        ("Model type set to " +:+ modelTypeLabel modelType
         +:+ ". API endpoint: " +:+ url endpointInfo)
  end.

(** ** [extension.ts]: the "Set API Key" action of [nanogpt.manage] *)

(** [secrets.delete(key)]; the deletion shows in [secrets]. *)
Definition secrets_delete (key : string) : Async unit :=
  fun w =>
    (Resolved tt,
     {| network := network w; inputBox := inputBox w;
        modelTypes := modelTypes w;
        secrets := delete key (secrets w); trace := trace w |}).

Definition setApiKey : Async unit :=
  let* existing := secrets_get API_KEY in
  let* apiKey := showInputBox in
  match apiKey with
  | None => resolve tt
  | Some entered =>
      if String.eqb (trim entered) "" then
        secrets_delete API_KEY ;;;
        showInformationMessage "NanoGPT API key cleared."
      else
        secrets_store API_KEY (trim entered) ;;;
        showInformationMessage "NanoGPT API key saved."
  end.

(** ** [types.ts]: the settings schema *)

(** [z.enum([...])] *)
Definition zod_enum (values : list string) : Zod.Schema string :=
  Zod.literals (List.map (fun v => (v, v)) values).

(** [z.number().min(lo).max(hi)] *)
Definition zod_number_between (lo hi : Z) : Zod.Schema Z :=
  fun path v =>
    Zod.bind (Zod.number path v) (fun n =>
      if (lo <=? n) && (n <=? hi) then Zod.Ok n else Zod.Fail path).

Record ReasoningSettings : Type := {
  reasoningEnabled : bool;
  defaultEffort : string
}.

Record MemorySettings : Type := {
  memoryEnabled : bool;
  defaultDays : Z
}.

Record SearchSettings : Type := {
  searchEnabled : bool;
  defaultMode : string
}.

Record ByokSettings : Type := {
  byokEnabled : bool;
  defaultProvider : string
}.

Record NanoGPTConfiguration : Type := {
  reasoningSettings : ReasoningSettings;
  memorySettings : MemorySettings;
  searchSettings : SearchSettings;
  byokSettings : ByokSettings
}.

Definition ReasoningSettingsSchema : Zod.Schema ReasoningSettings :=
  Zod.object (fun path f =>
    e <-z Zod.field (Zod.default Zod.boolean true) path f "enabled" ;;
    d <-z Zod.field (Zod.default (zod_enum ["low"; "medium"; "high"]) "medium")
            path f "defaultEffort" ;;
    Zod.Ok {| reasoningEnabled := e; defaultEffort := d |}).

Definition MemorySettingsSchema : Zod.Schema MemorySettings :=
  Zod.object (fun path f =>
    e <-z Zod.field (Zod.default Zod.boolean true) path f "enabled" ;;
    d <-z Zod.field (Zod.default (zod_number_between 1 365) 30)
            path f "defaultDays" ;;
    Zod.Ok {| memoryEnabled := e; defaultDays := d |}).

Definition SearchSettingsSchema : Zod.Schema SearchSettings :=
  Zod.object (fun path f =>
    e <-z Zod.field (Zod.default Zod.boolean true) path f "enabled" ;;
    d <-z Zod.field (Zod.default (zod_enum ["standard"; "deep"]) "standard")
            path f "defaultMode" ;;
    Zod.Ok {| searchEnabled := e; defaultMode := d |}).

Definition ByokSettingsSchema : Zod.Schema ByokSettings :=
  Zod.object (fun path f =>
    e <-z Zod.field (Zod.default Zod.boolean false) path f "enabled" ;;
    d <-z Zod.field
            (Zod.default (zod_enum ["openai"; "anthropic"; "google"]) "openai")
            path f "defaultProvider" ;;
    Zod.Ok {| byokEnabled := e; defaultProvider := d |}).

Definition NanoGPTConfigurationSchema : Zod.Schema NanoGPTConfiguration :=
  Zod.object (fun path f =>
    r <-z Zod.field
            (Zod.default ReasoningSettingsSchema
               {| reasoningEnabled := true; defaultEffort := "medium" |})
            path f "reasoning" ;;
    m <-z Zod.field
            (Zod.default MemorySettingsSchema
               {| memoryEnabled := true; defaultDays := 30 |})
            path f "memory" ;;
    s <-z Zod.field
            (Zod.default SearchSettingsSchema
               {| searchEnabled := true; defaultMode := "standard" |})
            path f "search" ;;
    b <-z Zod.field
            (Zod.default ByokSettingsSchema
               {| byokEnabled := false; defaultProvider := "openai" |})
            path f "byok" ;;
    Zod.Ok {| reasoningSettings := r; memorySettings := m;
              searchSettings := s; byokSettings := b |}).

(* ================================================================== *)
(** * Vocabulary of the further properties *)
(* ================================================================== *)

(** The world after further events; nothing but the trace differs. *)
Definition extend (w : World) (events : list Event) : World :=
  {| network := network w; inputBox := inputBox w; modelTypes := modelTypes w;
     secrets := secrets w; trace := trace w ++ events |}.

(** The URLs of the three endpoint categories. *)
Definition endpointUrls : list string :=
  List.map (fun c => url (ENDPOINT_CONFIGS c)) ENDPOINT_ORDER.

(** What a catalogue fetch made with [apiKey] may do: request one of the
    three endpoints with the key as bearer token, wait 1000 or 2000 ms,
    show a message. It shows no input box and writes no secret. *)
Definition fetchEvent (apiKey userAgent : string) (e : Event) : Prop :=
  match e with
  | EvFetch u authorization agent =>
      In u endpointUrls /\ authorization = "Bearer " +:+ apiKey
      /\ agent = userAgent
  | EvTimeout delay => delay = 1000 \/ delay = 2000
  | EvInformationMessage _ | EvErrorMessage _ => True
  | EvInputBox | EvSecretStore _ _ => False
  end.

(** A raw entry and the parsed entry made of it: the raw entry is an object
    whose [id] and [name] are the strings the parsed entry holds. *)
Definition entryMatches (raw : Json) (d : NanoGPTModelDetails) : Prop :=
  exists fields,
    raw = JObject fields
    /\ assoc "id" fields = Some (JString (id d))
    /\ assoc "name" fields = Some (JString (name d)).

(** A raw entry without a string [id]. *)
Definition lacksId (raw : Json) : Prop :=
  forall fields s, raw = JObject fields -> assoc "id" fields <> Some (JString s).

(** The fixed part of every descriptor the provider hands out. *)
Definition wellFormedInfo (info : LanguageModelChatInformation) : Prop :=
  info_id info <> ""
  /\ toolCalling (capabilities info) = true
  /\ detail info = "NanoGPT.com"
  /\ family info = "nanogpt"
  /\ version info = "1.0.0".

(** The requests of the three attempts of one endpoint fetch, with the
    timers between them. *)
Definition attemptEvents (request : Event) (attempts : nat) : list Event :=
  match attempts with
  | 0%nat => []
  | 1%nat => [request]
  | 2%nat => [request; EvTimeout 1000; request]
  | _ => [request; EvTimeout 1000; request; EvTimeout 2000; request]
  end.

(** U+00A0, the no-break space, in UTF-8. *)
Definition noBreakSpace : string :=
  String (ascii_of_N 194) (String (ascii_of_N 160) EmptyString).

(** A host whose user answers every input box with [answer]. *)
Definition promptHost (net : list Event -> string -> FetchReply)
    (apiKey : option string) (answer : option string) : World :=
  {| network := net;
     inputBox := fun _ => answer;
     modelTypes := None;
     secrets := match apiKey with
                | Some k => {[ API_KEY := k ]}
                | None => ∅
                end;
     trace := [] |}.

(** A server that answers every request with status 401. *)
Definition unauthorizedHost : World :=
  host (byUrl (fun _ => errorResponse 401 "Unauthorized" "Invalid API key"))
    (Some "k") None.

(** A server whose catalogue has an entry without id. *)
Definition missingIdCatalog : Json :=
  catalog [entry "gpt-4o" "GPT-4o";
           JObject [("object", JString "model"); ("name", JString "x")]].

(** The endpoint registry as the specification has it: the URL and the
    display label of each category. *)
Definition categoryUrl (c : ModelType) : string :=
  match c with
  | all => "https://nano-gpt.com/api/v1/models?detailed=true"
  | premium => "https://nano-gpt.com/api/paid/v1/models?detailed=true"
  | subscription =>
      "https://nano-gpt.com/api/subscription/v1/models?detailed=true"
  end.

Definition categoryLabel (c : ModelType) : string :=
  match c with
  | all => "All Models"
  | premium => "Premium Models"
  | subscription => "Subscription Models"
  end.

(** A request for the catalogue of a category. *)
Definition categoryRequest (apiKey userAgent : string) (c : ModelType) : Event :=
  EvFetch (categoryUrl c) ("Bearer " +:+ apiKey) userAgent.

(** What attempting, in order, categories that all fail leaves in the
    trace: for each, the three requests of its retry budget and the two
    timers between them. *)
Definition failedBlocks (apiKey userAgent : string)
    (categories : list ModelType) : list Event :=
  List.concat
    (List.map
       (fun c => attemptEvents (categoryRequest apiKey userAgent c) 3)
       categories).

(** One step through a schema body: the next field parsed, or the parse
    failed. *)
Ltac zod_step H :=
  match type of H with
  | Zod.bind ?r _ = _ =>
      let E := fresh "E" in
      destruct r eqn:E; cbn [Zod.bind] in H; [|discriminate H]
  end.

(* ================================================================== *)
(** * Properties *)
(* ================================================================== *)

(** ** The trace *)

Lemma trace_record e w : trace (record e w) = trace w ++ [e].
Proof. reflexivity. Qed.

Lemma timeouts_app tr1 tr2 : timeouts (tr1 ++ tr2) = timeouts tr1 ++ timeouts tr2.
Proof. apply omap_app. Qed.

Lemma fetches_app tr1 tr2 : fetches (tr1 ++ tr2) = fetches tr1 ++ fetches tr2.
Proof. apply List.filter_app. Qed.

Lemma notifications_app tr1 tr2 :
  notifications (tr1 ++ tr2) = notifications tr1 ++ notifications tr2.
Proof. apply List.filter_app. Qed.

(** ** The retry loop *)

Section Retry.

Context {T : Type} (operation : Async T) (config : RetryConfig).

(** One iteration, when the attempt fails and is not the last one. *)
Lemma retryLoop_retry fuel attempt lastError w e w' :
  attempt <= maxAttempts config ->
  attempt <> maxAttempts config ->
  operation w = (Rejected e, w') ->
  retryLoop operation config (S fuel) attempt lastError w =
  retryLoop operation config fuel (attempt + 1) (Some (asError e))
    (record (EvTimeout (backoffDelay config attempt)) w').
Proof.
  intros Hle Hne Hop. simpl.
  apply Z.leb_le in Hle. rewrite Hle.
  unfold try_catch. rewrite Hop.
  apply Z.eqb_neq in Hne. rewrite Hne. reflexivity.
Qed.

(** The last attempt fails: its error is thrown, without waiting. *)
Lemma retryLoop_exhausted fuel lastError w e w' :
  operation w = (Rejected e, w') ->
  retryLoop operation config (S fuel) (maxAttempts config) lastError w =
  (Rejected (asError e), w').
Proof.
  intros Hop. simpl. rewrite Z.leb_refl.
  unfold try_catch. rewrite Hop. rewrite Z.eqb_refl. reflexivity.
Qed.

Lemma retryLoop_success fuel attempt lastError w v w' :
  attempt <= maxAttempts config ->
  operation w = (Resolved v, w') ->
  retryLoop operation config (S fuel) attempt lastError w = (Resolved v, w').
Proof.
  intros Hle Hop. simpl. apply Z.leb_le in Hle. rewrite Hle.
  unfold try_catch. rewrite Hop. reflexivity.
Qed.

(** The fuel [retryWithBackoff] gives the loop is never what stops it:
    more fuel changes nothing. *)
Lemma retryLoop_fuel_enough fuel extra attempt lastError w :
  1 <= attempt ->
  maxAttempts config < attempt + Z.of_nat fuel ->
  retryLoop operation config (fuel + extra) attempt lastError w =
  retryLoop operation config fuel attempt lastError w.
Proof.
  revert attempt lastError w.
  induction fuel as [|fuel IH]; intros attempt lastError w Hpos Hfuel.
  - destruct extra as [|extra]; [reflexivity|].
    simpl. replace (attempt <=? maxAttempts config) with false; [reflexivity|].
    symmetry. apply Z.leb_gt. lia.
  - simpl. destruct (attempt <=? maxAttempts config) eqn:Hle; [|reflexivity].
    unfold try_catch. destruct (operation w) as [[v|e] w']; [reflexivity|].
    destruct (attempt =? maxAttempts config); [reflexivity|].
    unfold await, setTimeout. apply IH; lia.
Qed.

Hypothesis operation_starts_no_timer :
  forall w, timeouts (trace (snd (operation w))) = timeouts (trace w).

(** The timers the loop starts from attempt [attempt] on are those of the
    attempts [attempt], [attempt + 1], ..., each with its own delay. *)
Lemma retryLoop_timeouts fuel attempt lastError w :
  exists j : nat,
    timeouts (trace (snd (retryLoop operation config fuel attempt lastError w)))
    = timeouts (trace w)
      ++ List.map (fun k : nat => backoffDelay config (attempt + Z.of_nat k))
           (seq 0 j)
    /\ (j = 0%nat \/ attempt + Z.of_nat j <= maxAttempts config).
Proof.
  revert attempt lastError w.
  induction fuel as [|fuel IH]; intros attempt lastError w.
  - exists 0%nat. simpl. rewrite app_nil_r. auto.
  - simpl. destruct (attempt <=? maxAttempts config) eqn:Hle.
    2:{ exists 0%nat. simpl. rewrite app_nil_r. auto. }
    unfold try_catch.
    pose proof (operation_starts_no_timer w) as Hop.
    destruct (operation w) as [[v|e] w'] eqn:Hrun; simpl in Hop.
    { exists 0%nat. simpl. rewrite app_nil_r. auto. }
    destruct (attempt =? maxAttempts config) eqn:Heq.
    { exists 0%nat. simpl. rewrite app_nil_r. auto. }
    unfold await, setTimeout.
    destruct (IH (attempt + 1) (Some (asError e))
                (record (EvTimeout (backoffDelay config attempt)) w'))
      as (j & Htr & Hj).
    exists (S j). split.
    + rewrite Htr, trace_record, timeouts_app, Hop. simpl.
      rewrite <- app_assoc. simpl. f_equal.
      rewrite Z.add_0_r. f_equal.
      rewrite <- seq_shift, List.map_map.
      apply List.map_ext. intros k. f_equal. lia.
    + right. apply Z.leb_le in Hle. apply Z.eqb_neq in Heq.
      destruct Hj as [->|Hj]; lia.
Qed.

End Retry.

(** [retryWithBackoff] is the loop run to its end: with any additional
    fuel the loop behaves the same. *)
Lemma retryWithBackoff_fuel {T} (operation : Async T) config extra w :
  retryLoop operation config (Z.to_nat (maxAttempts config) + extra) 1 None w
  = retryWithBackoff operation config w.
Proof. unfold retryWithBackoff. apply retryLoop_fuel_enough; lia. Qed.

(** ** One attempt of the endpoint fetch *)

(** An attempt makes one request and ends as [readReply] says. *)
Lemma fetchOperation_run apiKey endpoint userAgent w :
  fetchOperation apiKey endpoint userAgent w =
  (match readReply endpoint (network w (trace w) (url endpoint)) with
   | inl failure => Rejected (ErrorObj (failureMessage failure))
   | inr result => Resolved result
   end,
   record (EvFetch (url endpoint) ("Bearer " +:+ apiKey) userAgent) w).
Proof.
  unfold fetchOperation, await, fetch, readReply.
  destruct (network w (trace w) (url endpoint)) as [reason|response];
    [reflexivity|].
  destruct (readResponse endpoint response); reflexivity.
Qed.

Lemma fetchOperation_starts_no_timer apiKey endpoint userAgent w :
  timeouts (trace (snd (fetchOperation apiKey endpoint userAgent w)))
  = timeouts (trace w).
Proof.
  rewrite fetchOperation_run. simpl.
  rewrite timeouts_app. simpl. apply app_nil_r.
Qed.

(** ** Backoff delays *)

Lemma worldBeforeAttempt_next {T} (operation : Async T) config w (a : nat) :
  (1 <= a)%nat ->
  worldBeforeAttempt operation config w (S a)
  = record (EvTimeout (backoffDelay config (Z.of_nat a)))
      (snd (operation (worldBeforeAttempt operation config w a))).
Proof. intros Ha. destruct a as [|a']; [lia|reflexivity]. Qed.

(** The loop entered at attempt [a], in the world in which that attempt
    starts: it ends on an attempt [n], the attempts before [n] having
    failed, with the outcome of attempt [n]; and it ends on a failure only
    at the last attempt allowed. *)
Lemma retryLoop_attempts {T} (operation : Async T) config fuel (a : nat)
    lastError w :
  (1 <= a)%nat ->
  Z.of_nat a <= maxAttempts config ->
  maxAttempts config < Z.of_nat a + Z.of_nat fuel ->
  exists n : nat,
    (a <= n)%nat
    /\ Z.of_nat n <= maxAttempts config
    /\ (forall k : nat,
          (a <= k < n)%nat ->
          exists e,
            fst (operation (worldBeforeAttempt operation config w k))
            = Rejected e)
    /\ retryLoop operation config fuel (Z.of_nat a) lastError
         (worldBeforeAttempt operation config w a)
       = (finalOutcome
            (fst (operation (worldBeforeAttempt operation config w n))),
          snd (operation (worldBeforeAttempt operation config w n)))
    /\ (forall e,
          fst (operation (worldBeforeAttempt operation config w n))
          = Rejected e ->
          Z.of_nat n = maxAttempts config).
Proof.
  revert a lastError.
  induction fuel as [|fuel IH]; intros a lastError Ha Hmax Hfuel; [lia|].
  cbn [retryLoop].
  replace (Z.of_nat a <=? maxAttempts config) with true
    by (symmetry; apply Z.leb_le; exact Hmax).
  unfold try_catch.
  destruct (operation (worldBeforeAttempt operation config w a))
    as [[v|e] w'] eqn:Hop.
  - exists a. rewrite Hop. cbn [fst snd finalOutcome].
    split; [lia|]. split; [exact Hmax|]. split; [intros k Hk; lia|].
    split; [reflexivity|discriminate].
  - destruct (Z.of_nat a =? maxAttempts config) eqn:Hlast.
    + apply Z.eqb_eq in Hlast. exists a. rewrite Hop.
      cbn [fst snd finalOutcome].
      split; [lia|]. split; [exact Hmax|]. split; [intros k Hk; lia|].
      split; [reflexivity|intros; exact Hlast].
    + apply Z.eqb_neq in Hlast. unfold await, setTimeout.
      destruct (IH (S a) (Some (asError e)) ltac:(lia) ltac:(lia) ltac:(lia))
        as (n & Hn & Hnmax & Hfailed & Hrun & Hend).
      rewrite worldBeforeAttempt_next in Hrun by exact Ha.
      rewrite Hop in Hrun. cbn [snd] in Hrun.
      replace (Z.of_nat (S a)) with (Z.of_nat a + 1) in Hrun by lia.
      exists n. split; [lia|]. split; [exact Hnmax|].
      split; [|split; [exact Hrun|exact Hend]].
      intros k Hk. destruct (Nat.eq_dec k a) as [->|Hne].
      * rewrite Hop. simpl. eauto.
      * apply Hfailed. lia.
Qed.

Lemma worldBeforeAttempt_timeouts {T} (operation : Async T) config w (k : nat) :
  (forall w0, timeouts (trace (snd (operation w0))) = timeouts (trace w0)) ->
  timeouts (trace (worldBeforeAttempt operation config w k))
  = timeouts (trace w)
    ++ List.map
         (fun j : nat =>
            delayMs config * backoffMultiplier config ^ (Z.of_nat j - 1))
         (seq 1 (k - 1)).
Proof.
  intros Hop. induction k as [|k IH]; [simpl; symmetry; apply app_nil_r|].
  destruct k as [|k']; [simpl; symmetry; apply app_nil_r|].
  change (worldBeforeAttempt operation config w (S (S k')))
    with (record
            (EvTimeout
               (delayMs config
                * backoffMultiplier config ^ (Z.of_nat (S k') - 1)))
            (snd (operation
                    (worldBeforeAttempt operation config w (S k'))))).
  rewrite trace_record, timeouts_app, Hop, IH.
  replace (S (S k') - 1)%nat with (S (S k' - 1)) by lia.
  rewrite seq_S, List.map_app, <- app_assoc.
  replace (1 + (S k' - 1))%nat with (S k') by lia.
  reflexivity.
Qed.

(** C6. For every operation and every retry policy of integers on which
    the arithmetic of doubles is exact, [retryWithBackoff] ends on some
    attempt n, not beyond [maxAttempts]: every attempt before n failed,
    attempt k + 1 starts in the world attempt k left followed by exactly
    one timer of [delayMs * backoffMultiplier ^ (k - 1)], the outcome is
    that of attempt n, and attempt n fails only if it is the last one
    allowed; so the timers started are those of attempts 1 to n - 1, one
    for each. With the policy (3, 1000, 2), an operation that fails twice
    and then succeeds makes the call resolve with its value after exactly
    two timers, of 1000 then 2000 milliseconds. *)
Theorem retry_backoff_delays {T} (operation : Async T) :
  (forall config w,
     1 <= maxAttempts config ->
     exactPolicy config ->
     exists n : nat,
       1 <= Z.of_nat n <= maxAttempts config
       /\ (forall k : nat,
             (1 <= k < n)%nat ->
             exists e,
               fst (operation (worldBeforeAttempt operation config w k))
               = Rejected e)
       /\ retryWithBackoff operation config w
          = (finalOutcome
               (fst (operation (worldBeforeAttempt operation config w n))),
             snd (operation (worldBeforeAttempt operation config w n)))
       /\ (forall e,
             fst (operation (worldBeforeAttempt operation config w n))
             = Rejected e ->
             Z.of_nat n = maxAttempts config)
       /\ ((forall w0,
               timeouts (trace (snd (operation w0))) = timeouts (trace w0)) ->
           timeouts (trace (snd (retryWithBackoff operation config w)))
           = timeouts (trace w)
             ++ List.map
                  (fun k : nat =>
                     delayMs config
                     * backoffMultiplier config ^ (Z.of_nat k - 1))
                  (seq 1 (n - 1))))
  /\ (forall w e1 w1 e2 w2 v w3,
        (forall w0,
           timeouts (trace (snd (operation w0))) = timeouts (trace w0)) ->
        operation w = (Rejected e1, w1) ->
        operation (record (EvTimeout 1000) w1) = (Rejected e2, w2) ->
        operation (record (EvTimeout 2000) w2) = (Resolved v, w3) ->
        retryWithBackoff operation
          {| maxAttempts := 3; delayMs := 1000; backoffMultiplier := 2 |} w
        = (Resolved v, w3)
        /\ timeouts (trace w3) = timeouts (trace w) ++ [1000; 2000]).
Proof.
  split.
  - intros config w Hsome _. unfold retryWithBackoff.
    destruct (retryLoop_attempts operation config
                (Z.to_nat (maxAttempts config)) 1 None w
                ltac:(lia) ltac:(simpl; lia) ltac:(lia))
      as (n & Hn & Hnmax & Hfailed & Hrun & Hend).
    change (Z.of_nat 1) with 1 in Hrun.
    change (worldBeforeAttempt operation config w 1) with w in Hrun.
    exists n. split; [lia|]. split; [exact Hfailed|].
    split; [exact Hrun|]. split; [exact Hend|].
    intros Hop. rewrite Hrun. cbn [snd]. rewrite Hop.
    apply worldBeforeAttempt_timeouts. exact Hop.
  - intros w e1 w1 e2 w2 v w3 Hop H1 H2 H3. split.
    + unfold retryWithBackoff. simpl.
      unfold try_catch. rewrite H1. simpl.
      unfold await, setTimeout, try_catch. simpl.
      change (backoffDelay _ 1) with 1000. rewrite H2. simpl.
      change (backoffDelay _ (1 + 1)) with 2000. rewrite H3. reflexivity.
    + pose proof (Hop w) as T1. rewrite H1 in T1. cbn [snd] in T1.
      pose proof (Hop (record (EvTimeout 1000) w1)) as T2.
      rewrite H2 in T2. cbn [snd] in T2.
      pose proof (Hop (record (EvTimeout 2000) w2)) as T3.
      rewrite H3 in T3. cbn [snd] in T3.
      rewrite T3, trace_record, timeouts_app, T2, trace_record, timeouts_app, T1.
      rewrite <- app_assoc. reflexivity.
Qed.

Lemma RETRY_CONFIG_exact : exactPolicy RETRY_CONFIG.
Proof.
  unfold exactPolicy, exactInteger. simpl.
  repeat split; try lia.
  - assert (k = 1 \/ k = 2) as [->| ->] by lia; simpl; lia.
  - assert (k = 1 \/ k = 2) as [->| ->] by lia; simpl; lia.
Qed.

(** The example of C6 on the endpoint fetch: a server error, then a
    transport failure, then a catalogue; the call ends on attempt 3. *)
Lemma retry_backoff_delays_witness :
  let w :=
    host (scripted [errorResponse 500 "Internal Server Error" "boom";
                    FetchRejects "ECONNRESET";
                    jsonResponse 200 "OK" (catalog [entry "gpt-4o" "GPT-4o"])])
      (Some "k") None in
  let r :=
    retryWithBackoff (fetchOperation "k" (ENDPOINT_CONFIGS all) "ua")
      RETRY_CONFIG w in
  (exists v, fst r = Resolved v) /\ timeouts (trace (snd r)) = [1000; 2000]
  /\ exists n : nat,
       1 <= Z.of_nat n <= 3
       /\ timeouts (trace (snd r))
          = List.map (fun k : nat => 1000 * 2 ^ (Z.of_nat k - 1))
              (seq 1 (n - 1)).
Proof.
  intros w r.
  destruct (retry_backoff_delays
              (fetchOperation "k" (ENDPOINT_CONFIGS all) "ua"))
    as [Hgeneral Hexample].
  destruct (Hexample w
              (ErrorObj "HTTP 500: Internal Server Error - boom")
              (snd (fetchOperation "k" (ENDPOINT_CONFIGS all) "ua" w))
              (ErrorObj "ECONNRESET") _ _ _
              (fetchOperation_starts_no_timer "k" (ENDPOINT_CONFIGS all) "ua")
              ltac:(vm_compute; reflexivity)
              ltac:(vm_compute; reflexivity)
              ltac:(vm_compute; reflexivity)) as [Hrun Htimers].
  destruct (Hgeneral RETRY_CONFIG w ltac:(simpl; lia) RETRY_CONFIG_exact)
    as (n & Hn & _ & _ & _ & Hdelays).
  specialize (Hdelays
                (fetchOperation_starts_no_timer "k" (ENDPOINT_CONFIGS all) "ua")).
  subst r. split; [|split].
  - unfold RETRY_CONFIG. rewrite Hrun. simpl. eexists. reflexivity.
  - unfold RETRY_CONFIG. rewrite Hrun. exact Htimers.
  - exists n. split; [exact Hn|]. exact Hdelays.
Defined.

(** ** The API key *)

(** A silent call reads the secret storage and does nothing else. *)
Lemma ensureApiKey_silent_run (w : World) :
  ensureApiKey true w = (Resolved (secrets w !! API_KEY), w).
Proof.
  unfold ensureApiKey, await, secrets_get. simpl.
  rewrite andb_false_r. reflexivity.
Qed.

Lemma ensureApiKey_silent_run_legacy (w : World) :
  Legacy.ensureApiKey true w = (Resolved (secrets w !! API_KEY), w).
Proof.
  unfold Legacy.ensureApiKey, await, secrets_get. simpl.
  rewrite andb_false_r. reflexivity.
Qed.

(** C10. Called with [silent = true], [ensureApiKey] resolves with what the
    secret storage holds under the key name (the stored key, or
    [undefined]) and leaves the world as it found it: no input box is
    shown and nothing is written to the secret storage. The same holds of
    the single-endpoint service. *)
Theorem ensureApiKey_silent_frame (w : World) :
  ensureApiKey true w = (Resolved (secrets w !! API_KEY), w)
  /\ Legacy.ensureApiKey true w = (Resolved (secrets w !! API_KEY), w).
Proof.
  split.
  - apply ensureApiKey_silent_run.
  - apply ensureApiKey_silent_run_legacy.
Qed.

(** C9. With no API key stored and a silent call,
    [prepareLanguageModelChatInformation] resolves with the empty list and
    the world is unchanged: no network request (and no message, no input
    box). The same holds of the single-endpoint service. *)
Theorem prepare_silent_without_key userAgent (token : CancellationToken)
    (w : World) :
  secrets w !! API_KEY = None ->
  prepareLanguageModelChatInformation userAgent {| silent := true |} token w
  = (Resolved [], w)
  /\ Legacy.prepareLanguageModelChatInformation userAgent {| silent := true |}
       token w
     = (Resolved [], w).
Proof.
  intros Hkey.
  unfold prepareLanguageModelChatInformation,
    Legacy.prepareLanguageModelChatInformation, await. simpl.
  rewrite ensureApiKey_silent_run, ensureApiKey_silent_run_legacy, Hkey.
  simpl. split; reflexivity.
Qed.

Lemma prepare_silent_without_key_witness :
  let w := host (scripted []) None None in
  let token := {| isCancellationRequested := false |} in
  prepareLanguageModelChatInformation "ua" {| silent := true |} token w
  = (Resolved [], w)
  /\ fetches (trace w) = [].
Proof.
  intros w token. split.
  - apply (prepare_silent_without_key "ua" token w). reflexivity.
  - reflexivity.
Defined.

(** ** The endpoint fetch under the retry policy *)

(** The three attempts of [fetchModelsFromEndpoint] written out: each one is
    a request; a failed first or second attempt is followed by a timer of
    1000 and 2000 milliseconds and by the next attempt; the failure of the
    third attempt is thrown. *)
Lemma fetchModelsFromEndpoint_run apiKey endpoint userAgent w :
  let request := EvFetch (url endpoint) ("Bearer " +:+ apiKey) userAgent in
  let reply v := readReply endpoint (network w (trace v) (url endpoint)) in
  let w1 := record (EvTimeout 1000) (record request w) in
  let w2 := record (EvTimeout 2000) (record request w1) in
  fetchModelsFromEndpoint apiKey endpoint userAgent w =
  match reply w with
  | inr result => (Resolved result, record request w)
  | inl _ =>
      match reply w1 with
      | inr result => (Resolved result, record request w1)
      | inl _ =>
          match reply w2 with
          | inr result => (Resolved result, record request w2)
          | inl failure =>
              (Rejected (ErrorObj (failureMessage failure)), record request w2)
          end
      end
  end.
Proof.
  intros request reply w1 w2.
  unfold fetchModelsFromEndpoint, retryWithBackoff.
  change (Z.to_nat (maxAttempts RETRY_CONFIG)) with 3%nat.
  pose proof (fetchOperation_run apiKey endpoint userAgent w) as R0.
  fold request in R0. fold (reply w) in R0.
  destruct (reply w) as [f0|r0].
  2:{ erewrite retryLoop_success; [reflexivity| |exact R0]. simpl. lia. }
  erewrite retryLoop_retry; [| | |exact R0]; [|simpl; lia..].
  change (backoffDelay RETRY_CONFIG 1) with 1000. fold w1.
  pose proof (fetchOperation_run apiKey endpoint userAgent w1) as R1.
  change (network w1) with (network w) in R1.
  fold request in R1. fold (reply w1) in R1.
  destruct (reply w1) as [f1|r1].
  2:{ erewrite retryLoop_success; [reflexivity| |exact R1]. simpl. lia. }
  erewrite retryLoop_retry; [| | |exact R1]; [|simpl; lia..].
  change (backoffDelay RETRY_CONFIG (1 + 1)) with 2000. fold w2.
  pose proof (fetchOperation_run apiKey endpoint userAgent w2) as R2.
  change (network w2) with (network w) in R2.
  fold request in R2. fold (reply w2) in R2.
  destruct (reply w2) as [f2|r2].
  2:{ erewrite retryLoop_success; [reflexivity| |exact R2]. simpl. lia. }
  change (1 + 1 + 1) with (maxAttempts RETRY_CONFIG).
  erewrite retryLoop_exhausted; [|exact R2]. reflexivity.
Qed.

(** What [fetchModelsFromEndpoint] throws is always an [Error]. *)
Lemma fetchModelsFromEndpoint_throws_Error apiKey endpoint userAgent w e w' :
  fetchModelsFromEndpoint apiKey endpoint userAgent w = (Rejected e, w') ->
  exists m, e = ErrorObj m.
Proof.
  rewrite fetchModelsFromEndpoint_run. cbv zeta.
  repeat match goal with
         | |- context [match ?x with inl _ => _ | inr _ => _ end] => destruct x
         end; intros H; inversion H; eauto.
Qed.

(** C1, counterexample. Against a server that keeps answering with an empty
    catalogue, the empty-result failure of the first attempt is not
    returned at once: three requests are made. *)
Lemma retry_nontransient_counterexample :
  ~ returnsNonTransientAtOnce "k" (ENDPOINT_CONFIGS all) "ua" emptyCatalogHost.
Proof.
  intros claim.
  specialize (claim EmptyFailure eq_refl eq_refl).
  apply (f_equal (fun r => length (fetches (trace (snd r))))) in claim.
  vm_compute in claim. discriminate claim.
Qed.

(** C1, amended. The retry wrapper retries every failure, whatever its
    class: when the first attempt of an endpoint fetch fails, a timer of
    1000 ms and a second request always follow. If the second attempt
    succeeds its result is returned; if it fails, a timer of 2000 ms and a
    third request follow, and the third attempt decides: its result is
    returned, or its failure is thrown. So a failure is returned only when
    three attempts in a row have failed, after exactly three requests and
    timers of 1000 and 2000 ms, and it is the failure of the third. *)
Theorem retry_every_failure apiKey endpoint userAgent w f1 :
  readReply endpoint (network w (trace w) (url endpoint)) = inl f1 ->
  let request := EvFetch (url endpoint) ("Bearer " +:+ apiKey) userAgent in
  let reply v := readReply endpoint (network w (trace v) (url endpoint)) in
  let w1 := record (EvTimeout 1000) (record request w) in
  let w2 := record (EvTimeout 2000) (record request w1) in
  let run := fetchModelsFromEndpoint apiKey endpoint userAgent w in
  (exists rest,
     trace (snd run) = trace w ++ [request; EvTimeout 1000; request] ++ rest)
  /\ (forall result, reply w1 = inr result ->
        run = (Resolved result, record request w1))
  /\ (forall f2 result, reply w1 = inl f2 -> reply w2 = inr result ->
        run = (Resolved result, record request w2)
        /\ trace (snd run)
           = trace w ++ [request; EvTimeout 1000; request; EvTimeout 2000;
                         request])
  /\ (forall f2 f3, reply w1 = inl f2 -> reply w2 = inl f3 ->
        run = (Rejected (ErrorObj (failureMessage f3)), record request w2)
        /\ trace (snd run)
           = trace w ++ [request; EvTimeout 1000; request; EvTimeout 2000;
                         request])
  /\ (forall e, fst run = Rejected e ->
        exists f2 f3,
          reply w1 = inl f2 /\ reply w2 = inl f3
          /\ e = ErrorObj (failureMessage f3)).
Proof.
  intros H1 request reply w1 w2 run.
  subst run. rewrite fetchModelsFromEndpoint_run. cbv zeta.
  fold request. fold w1. fold w2.
  change (readReply endpoint (network w (trace w) (url endpoint)))
    with (reply w) in *.
  change (readReply endpoint (network w (trace w1) (url endpoint)))
    with (reply w1).
  change (readReply endpoint (network w (trace w2) (url endpoint)))
    with (reply w2).
  rewrite H1. split; [|split; [|split; [|split]]].
  - destruct (reply w1) as [f2|r2].
    + exists [EvTimeout 2000; request].
      destruct (reply w2); simpl; rewrite <- !app_assoc; reflexivity.
    + exists []. simpl. rewrite <- !app_assoc. reflexivity.
  - intros result Hr. rewrite Hr. reflexivity.
  - intros f2 result H2 H3. rewrite H2, H3. split; [reflexivity|].
    simpl. rewrite <- !app_assoc. reflexivity.
  - intros f2 f3 H2 H3. rewrite H2, H3. split; [reflexivity|].
    simpl. rewrite <- !app_assoc. reflexivity.
  - intros e. destruct (reply w1) as [f2|r2]; [|discriminate].
    destruct (reply w2) as [f3|r3]; [|discriminate].
    simpl. intros He. inversion He. eauto.
Qed.

Lemma retry_every_failure_witness :
  let run :=
    fetchModelsFromEndpoint "k" (ENDPOINT_CONFIGS all) "ua" emptyCatalogHost in
  fst run = Rejected (ErrorObj "No models data found in API response")
  /\ length (fetches (trace (snd run))) = 3%nat
  /\ timeouts (trace (snd run)) = [1000; 2000].
Proof.
  intros run.
  destruct (retry_every_failure "k" (ENDPOINT_CONFIGS all) "ua"
              emptyCatalogHost EmptyFailure eq_refl) as (_ & _ & _ & Hfail & _).
  destruct (Hfail EmptyFailure EmptyFailure eq_refl eq_refl) as [Hrun Htrace].
  subst run. rewrite Htrace. rewrite Hrun. repeat split.
Defined.

(** ** Resolution across the endpoint categories *)

Lemma availableFallbacks_order preferred :
  availableFallbacks preferred =
  List.filter (fun c => negb (ModelType_eqb c preferred)) ENDPOINT_ORDER.
Proof. destruct preferred; reflexivity. Qed.

(** The fallback loop is [attemptInOrder], plus the notice on success. *)
Lemma tryFallbacks_run apiKey userAgent categories w :
  tryFallbacks apiKey userAgent categories w =
  match attemptInOrder apiKey userAgent categories w with
  | (_, Some (c, result), w') =>
      (Resolved (Some result), record (fallbackNotice c) w')
  | (_, None, w') => (Resolved None, w')
  end.
Proof.
  revert w. induction categories as [|c rest IH]; intros w; [reflexivity|].
  simpl. unfold try_catch, await.
  destruct (fetchModelsFromEndpoint apiKey (ENDPOINT_CONFIGS c) userAgent w)
    as [[result|e] w1]; [reflexivity|].
  rewrite IH.
  destruct (attemptInOrder apiKey userAgent rest w1) as [[failures found] w2].
  reflexivity.
Qed.

(** [fetchModels] against [attemptInOrder] over [resolutionOrder]. *)
Lemma fetchModels_run userAgent apiKey w :
  let preferred := getCurrentModelType w in
  fetchModels userAgent apiKey w =
  match attemptInOrder apiKey userAgent (resolutionOrder preferred) w with
  | ([], Some (_, result), w') => (Resolved result, w')
  | (_ :: _, Some (c, result), w') =>
      (Resolved result, record (fallbackNotice c) w')
  | (failures, None, w') =>
      let errorMessage :=
        messageOr "Unknown error" (hd thrown_undefined failures) in
      (Rejected (ErrorObj (allFailedMessage preferred errorMessage)),
       record (allFailedNotice errorMessage) w')
  end.
Proof.
  intros preferred. unfold fetchModels, resolutionOrder. fold preferred.
  simpl. unfold try_catch, await.
  destruct (fetchModelsFromEndpoint apiKey (ENDPOINT_CONFIGS preferred)
              userAgent w) as [[result|e] w1]; [reflexivity|].
  rewrite tryFallbacks_run, availableFallbacks_order.
  destruct (attemptInOrder apiKey userAgent _ w1) as [[failures found] w2].
  destruct found as [[c result]|]; reflexivity.
Qed.

(** ** The error raised when every category fails *)

Lemma refusingHost_500_resolution :
  exists w',
    attemptInOrder "k" "ua" (resolutionOrder premium)
      (refusingHost 500 "Internal Server Error")
    = ([ErrorObj "HTTP 401: Unauthorized - bad key";
        ErrorObj "HTTP 500: Internal Server Error - ";
        ErrorObj "HTTP 500: Internal Server Error - "],
       None, w').
Proof. eexists. vm_compute. reflexivity. Qed.

Lemma refusingHost_503_resolution :
  exists w',
    attemptInOrder "k" "ua" (resolutionOrder premium)
      (refusingHost 503 "Service Unavailable")
    = ([ErrorObj "HTTP 401: Unauthorized - bad key";
        ErrorObj "HTTP 503: Service Unavailable - ";
        ErrorObj "HTTP 503: Service Unavailable - "],
       None, w').
Proof. eexists. vm_compute. reflexivity. Qed.

(** C2, counterexample. The two servers make every category fail, with the
    same preferred failure and different subsequent failures, and
    [fetchModels] raises the same error against both: the subsequent
    failures cannot be read from it. *)
Lemma aggregate_error_counterexample : ~ carriesEveryFailure.
Proof.
  intros (carried & claim).
  destruct refusingHost_500_resolution as (wa & Ha).
  destruct refusingHost_503_resolution as (wb & Hb).
  destruct (claim "ua" "k" (refusingHost 500 "Internal Server Error")
              _ _ _ Ha) as (ea & wa' & Hrun_a & Hcarried_a).
  destruct (claim "ua" "k" (refusingHost 503 "Service Unavailable")
              _ _ _ Hb) as (eb & wb' & Hrun_b & Hcarried_b).
  rewrite fetchModels_run in Hrun_a, Hrun_b. cbv zeta in Hrun_a, Hrun_b.
  change (getCurrentModelType (refusingHost _ _)) with premium
    in Hrun_a, Hrun_b.
  rewrite Ha in Hrun_a. rewrite Hb in Hrun_b.
  simpl in Hrun_a, Hrun_b.
  assert (ea = eb) as Heq by congruence.
  rewrite Heq in Hcarried_a. rewrite Hcarried_a in Hcarried_b.
  vm_compute in Hcarried_b. discriminate Hcarried_b.
Qed.

(** C2, amended. Whenever every category's fetch fails during model
    resolution, the error raised is an [Error] whose message names the
    preferred endpoint and quotes the message of the preferred category's
    error; it is determined by these two alone, and one error message is
    shown to the user. The failures of the subsequent categories are not
    part of it. *)
Theorem fetchModels_all_fail_error userAgent apiKey (w : World)
    first subsequent w' :
  let preferred := getCurrentModelType w in
  attemptInOrder apiKey userAgent (resolutionOrder preferred) w
  = (first :: subsequent, None, w') ->
  exists m,
    first = ErrorObj m
    /\ fetchModels userAgent apiKey w
       = (Rejected
            (ErrorObj
               ("All NanoGPT endpoints failed. Primary: "
                +:+ displayName (ENDPOINT_CONFIGS preferred)
                +:+ ". Last error: " +:+ m)),
          record
            (EvErrorMessage
               ("Failed to fetch models from all NanoGPT endpoints. Last error: "
                +:+ m
                +:+ ". Please check your API key and internet connection."))
            w').
Proof.
  intros preferred Hall.
  assert (exists m, first = ErrorObj m) as [m ->].
  { unfold resolutionOrder in Hall. simpl in Hall.
    destruct (fetchModelsFromEndpoint apiKey (ENDPOINT_CONFIGS preferred)
                userAgent w) as [[result|e] w1] eqn:Hprimary;
      [discriminate Hall|].
    destruct (attemptInOrder apiKey userAgent _ w1) as [[failures found] w2].
    inversion Hall; subst.
    eapply fetchModelsFromEndpoint_throws_Error. exact Hprimary. }
  exists m. split; [reflexivity|].
  rewrite fetchModels_run. cbv zeta. fold preferred. rewrite Hall.
  reflexivity.
Qed.

Lemma fetchModels_all_fail_error_witness :
  fst (fetchModels "ua" "k" (refusingHost 500 "Internal Server Error"))
  = Rejected
      (ErrorObj
         "All NanoGPT endpoints failed. Primary: Premium Models. Last error: HTTP 401: Unauthorized - bad key").
Proof.
  destruct refusingHost_500_resolution as (w' & Hall).
  destruct (fetchModels_all_fail_error "ua" "k"
              (refusingHost 500 "Internal Server Error") _ _ _ Hall)
    as (m & Hfirst & Hrun).
  rewrite Hrun. inversion Hfirst. reflexivity.
Defined.

(** ** Cancellation *)

(** The cancelled call against the one-model server, run: one request,
    one descriptor. *)
Lemma cancelled_call_run :
  exists info w',
    prepareLanguageModelChatInformation "ua" {| silent := true |} cancelled
      oneModelHost
    = (Resolved [info], w')
    /\ info_id info = "gpt-4o"
    /\ length (fetches (trace w')) = 1%nat.
Proof. do 2 eexists. split; [vm_compute; reflexivity|]. split; reflexivity. Qed.

(** C4, counterexample. Entered with the signal already active, the call
    does not reject: it requests the catalogue and resolves with its
    model. *)
Lemma cancelled_call_counterexample :
  ~ abortsWhenCancelled "ua" {| silent := true |} oneModelHost.
Proof.
  intros claim.
  destruct (claim cancelled eq_refl) as [[e He] _].
  vm_compute in He. discriminate He.
Qed.

(** C4, amended. The cancellation signal is not consulted: entered with the
    signal already active, [prepareLanguageModelChatInformation] does what
    it does with an inactive signal - same outcome, same requests, same
    messages. The same holds of the single-endpoint service. *)
Theorem prepare_ignores_cancellation userAgent options
    (token : CancellationToken) (w : World) :
  prepareLanguageModelChatInformation userAgent options token w
  = prepareLanguageModelChatInformation userAgent options notCancelled w
  /\ Legacy.prepareLanguageModelChatInformation userAgent options token w
     = Legacy.prepareLanguageModelChatInformation userAgent options
         notCancelled w.
Proof. split; reflexivity. Qed.

(** ** Catalogue entries to descriptors *)

Lemma truthy_Some_nonempty apiKey :
  apiKey <> "" -> truthy (Some apiKey) = true.
Proof.
  intros Hne. simpl. apply negb_true_iff. apply String.eqb_neq. exact Hne.
Qed.

Lemma modelInfo_resolves m : modelInfo m = Resolved (pushed m).
Proof. unfold pushed, modelInfo. destruct (String.eqb _ _); reflexivity. Qed.

Lemma processModels_run models infos :
  processModels models infos = infos ++ omap pushed models.
Proof.
  revert infos. induction models as [|m rest IH]; intros infos; simpl.
  - symmetry. apply app_nil_r.
  - rewrite modelInfo_resolves. destruct (pushed m) as [info|].
    + rewrite IH, <- app_assoc. reflexivity.
    + apply IH.
Qed.

Lemma omap_pushed_filter models :
  Forall2 (fun m info => modelInfo m = Resolved (Some info))
    (List.filter hasId models) (omap pushed models).
Proof.
  induction models as [|m rest IH]; [constructor|].
  cbn [List.filter omap list_omap].
  unfold hasId at 1. unfold pushed at 1. unfold modelInfo.
  destruct (String.eqb (id (details m)) "") eqn:Hid; simpl; [exact IH|].
  constructor; [|exact IH].
  unfold modelInfo. rewrite Hid. reflexivity.
Qed.

Lemma modelInfo_resolves_legacy d :
  Legacy.modelInfo d = Resolved (pushedLegacy d).
Proof.
  unfold pushedLegacy, Legacy.modelInfo. destruct (String.eqb _ _); reflexivity.
Qed.

Lemma processModels_run_legacy models infos :
  Legacy.processModels models infos = infos ++ omap pushedLegacy models.
Proof.
  revert infos. induction models as [|m rest IH]; intros infos; simpl.
  - symmetry. apply app_nil_r.
  - rewrite modelInfo_resolves_legacy. destruct (pushedLegacy m) as [info|].
    + rewrite IH, <- app_assoc. reflexivity.
    + apply IH.
Qed.

Lemma omap_pushed_filter_legacy models :
  Forall2 (fun d info => Legacy.modelInfo d = Resolved (Some info))
    (List.filter hasIdLegacy models) (omap pushedLegacy models).
Proof.
  induction models as [|m rest IH]; [constructor|].
  cbn [List.filter omap list_omap].
  unfold hasIdLegacy at 1. unfold pushedLegacy at 1. unfold Legacy.modelInfo.
  destruct (String.eqb (id m) "") eqn:Hid; simpl; [exact IH|].
  constructor; [|exact IH].
  unfold Legacy.modelInfo. rewrite Hid. reflexivity.
Qed.

(** C5, counterexample. The validated catalogue has two entries and the
    call resolves with one descriptor: the entry with the empty id is
    skipped. *)
Lemma normalization_counterexample :
  ~ keepsEveryEntry "ua" "k" namelessEntryHost.
Proof.
  intros claim.
  assert (exists result w1,
            fetchModels "ua" "k" namelessEntryHost = (Resolved result, w1)
            /\ length (models result) = 2%nat) as (result & w1 & Hrun & Hlen).
  { do 2 eexists. split; [vm_compute; reflexivity|reflexivity]. }
  destruct (claim result w1 eq_refl Hrun) as (infos & w2 & Hprepare & Hcount).
  rewrite Hlen in Hcount.
  vm_compute in Hprepare. inversion Hprepare; subst infos.
  discriminate Hcount.
Qed.

(** C5, amended. Normalisation never raises: for every entry of a fetch
    result the [try] body resolves, so the basic descriptor of the [catch]
    is never built. An entry whose id is the empty string is skipped; the
    descriptors returned are, in order, the full descriptors of the other
    entries, so their number is the number of entries with a non-empty id;
    and these descriptors are what the call resolves with when the fetch
    succeeds. The same holds of the loop of the single-endpoint service. *)
Theorem normalization_skips_empty_ids (models : list CategorizedModel)
    (legacyModels : list NanoGPTModelDetails) :
  ((forall m, exists o, modelInfo m = Resolved o)
   /\ Forall2 (fun m info => modelInfo m = Resolved (Some info))
        (List.filter hasId models) (processModels models [])
   /\ length (processModels models []) = length (List.filter hasId models))
  /\ (forall userAgent options token w apiKey w1 w2 endpoint,
        ensureApiKey (silent options) w = (Resolved (Some apiKey), w1) ->
        apiKey <> "" ->
        fetchModels userAgent apiKey w1
        = (Resolved {| models := models; result_endpoint := endpoint |}, w2) ->
        prepareLanguageModelChatInformation userAgent options token w
        = (Resolved (processModels models []), w2))
  /\ ((forall d, exists o, Legacy.modelInfo d = Resolved o)
      /\ Forall2 (fun d info => Legacy.modelInfo d = Resolved (Some info))
           (List.filter hasIdLegacy legacyModels)
           (Legacy.processModels legacyModels [])
      /\ length (Legacy.processModels legacyModels [])
         = length (List.filter hasIdLegacy legacyModels)).
Proof.
  split; [|split].
  - rewrite processModels_run. simpl.
    pose proof (omap_pushed_filter models) as H.
    repeat split.
    + intros m. eexists. apply modelInfo_resolves.
    + exact H.
    + symmetry. eapply Forall2_length. exact H.
  - intros userAgent options token w apiKey w1 w2 endpoint Hkey Hne Hfetch.
    unfold prepareLanguageModelChatInformation, await.
    rewrite Hkey, (truthy_Some_nonempty _ Hne). simpl.
    unfold loadModels, try_catch, await. rewrite Hfetch. reflexivity.
  - rewrite processModels_run_legacy. simpl.
    pose proof (omap_pushed_filter_legacy legacyModels) as HL.
    repeat split.
    + intros d. eexists. apply modelInfo_resolves_legacy.
    + exact HL.
    + symmetry. eapply Forall2_length. exact HL.
Qed.

Lemma normalization_skips_empty_ids_witness :
  exists info w',
    prepareLanguageModelChatInformation "ua" {| silent := true |} notCancelled
      namelessEntryHost
    = (Resolved [info], w')
    /\ info_id info = "gpt-4o".
Proof.
  assert (exists result w1,
            fetchModels "ua" "k" namelessEntryHost = (Resolved result, w1)
            /\ List.map (fun m => id (details m)) (models result)
               = ["gpt-4o"; ""]) as (result & w1 & Hrun & Hids).
  { do 2 eexists. split; [vm_compute; reflexivity|reflexivity]. }
  destruct result as [models endpoint].
  destruct (normalization_skips_empty_ids models []) as (_ & Hcall & _).
  rewrite (Hcall "ua" {| silent := true |} notCancelled namelessEntryHost
             "k" namelessEntryHost w1 endpoint eq_refl
             ltac:(discriminate) Hrun).
  simpl in Hids.
  destruct models as [|m1 [|m2 [|m3 rest]]]; try discriminate Hids.
  injection Hids as Hid1 Hid2.
  simpl. unfold modelInfo at 1. rewrite Hid1. simpl.
  unfold modelInfo at 1. rewrite Hid2. simpl.
  do 2 eexists. split; reflexivity.
Defined.

(** ** Errors of the fetch never leave the provider *)

Lemma ensureApiKey_resolves silent w :
  exists apiKey w', ensureApiKey silent w = (Resolved apiKey, w').
Proof.
  unfold ensureApiKey, await, secrets_get, showInputBox.
  destruct (negb (truthy (secrets w !! API_KEY)) && negb silent);
    [|eauto].
  destruct (truthy (inputBox w (trace w))
            && truthy (trim <$> inputBox w (trace w))); eauto.
Qed.

(** The [try] around [fetchModels] always resolves; when the fetch throws,
    it resolves with the [return []] of the [catch]. *)
Lemma loadModels_run userAgent apiKey options w :
  exists w',
    loadModels userAgent apiKey options w =
    (Resolved
       match fetchModels userAgent apiKey w with
       | (Resolved result, _) => inr (models result)
       | (Rejected _, _) => inl []
       end, w').
Proof.
  unfold loadModels, try_catch, await.
  destruct (fetchModels userAgent apiKey w) as [[result|e] w1]; [eauto|].
  destruct (negb (silent options)); eauto.
Qed.

Lemma loadModels_run_legacy userAgent apiKey options w :
  exists w',
    Legacy.loadModels userAgent apiKey options w =
    (Resolved
       match Legacy.fetchModels userAgent apiKey w with
       | (Resolved models, _) => inr models
       | (Rejected _, _) => inl []
       end, w').
Proof.
  unfold Legacy.loadModels, try_catch, await.
  destruct (Legacy.fetchModels userAgent apiKey w) as [[result|e] w1]; [eauto|].
  destruct (negb (silent options)); eauto.
Qed.

(** C8. [prepareLanguageModelChatInformation] never rejects, and whenever
    [fetchModels] throws - the all-endpoints-failed error of the current
    service; the HTTP, validation and empty-catalogue errors of the
    single-endpoint service - the call resolves with the empty list. *)
Theorem prepare_catches_fetch_errors userAgent options
    (token : CancellationToken) (w : World) :
  ((exists infos w',
      prepareLanguageModelChatInformation userAgent options token w
      = (Resolved infos, w'))
   /\ (forall apiKey w1 e w2,
         ensureApiKey (silent options) w = (Resolved (Some apiKey), w1) ->
         apiKey <> "" ->
         fetchModels userAgent apiKey w1 = (Rejected e, w2) ->
         fst (prepareLanguageModelChatInformation userAgent options token w)
         = Resolved []))
  /\ ((exists infos w',
         Legacy.prepareLanguageModelChatInformation userAgent options token w
         = (Resolved infos, w'))
      /\ (forall apiKey w1 e w2,
            Legacy.ensureApiKey (silent options) w
            = (Resolved (Some apiKey), w1) ->
            apiKey <> "" ->
            Legacy.fetchModels userAgent apiKey w1 = (Rejected e, w2) ->
            fst (Legacy.prepareLanguageModelChatInformation userAgent options
                   token w)
            = Resolved [])).
Proof.
  split; split.
  - unfold prepareLanguageModelChatInformation, await.
    destruct (ensureApiKey_resolves (silent options) w) as (k & w1 & ->).
    destruct (negb (truthy k)); [unfold resolve; eauto|].
    destruct (loadModels_run userAgent (default "" k) options w1) as (w2 & ->).
    destruct (fetchModels userAgent (default "" k) w1) as [[result|e] w3];
      unfold resolve; simpl; eauto.
  - intros apiKey w1 e w2 Hkey Hne Hfetch.
    unfold prepareLanguageModelChatInformation, await.
    rewrite Hkey, (truthy_Some_nonempty _ Hne). simpl.
    destruct (loadModels_run userAgent apiKey options w1) as (w3 & ->).
    rewrite Hfetch. reflexivity.
  - unfold Legacy.prepareLanguageModelChatInformation, await.
    destruct (ensureApiKey_resolves (silent options) w) as (k & w1 & Hk).
    change (Legacy.ensureApiKey (silent options) w)
      with (ensureApiKey (silent options) w).
    rewrite Hk.
    destruct (negb (truthy k)); [unfold resolve; eauto|].
    destruct (loadModels_run_legacy userAgent (default "" k) options w1)
      as (w2 & ->).
    destruct (Legacy.fetchModels userAgent (default "" k) w1)
      as [[result|e] w3]; unfold resolve; simpl; eauto.
  - intros apiKey w1 e w2 Hkey Hne Hfetch.
    unfold Legacy.prepareLanguageModelChatInformation, await.
    rewrite Hkey, (truthy_Some_nonempty _ Hne). simpl.
    destruct (loadModels_run_legacy userAgent apiKey options w1) as (w3 & ->).
    rewrite Hfetch. reflexivity.
Qed.

Lemma prepare_catches_fetch_errors_witness :
  fst (prepareLanguageModelChatInformation "ua" {| silent := true |}
         notCancelled emptyCatalogHost)
  = Resolved []
  /\ fst (Legacy.prepareLanguageModelChatInformation "ua" {| silent := true |}
            notCancelled emptyCatalogHost)
     = Resolved [].
Proof.
  destruct (prepare_catches_fetch_errors "ua" {| silent := true |}
              notCancelled emptyCatalogHost)
    as [[_ Hcurrent] [_ Hlegacy]].
  split.
  - apply (Hcurrent "k" emptyCatalogHost
             (ErrorObj
                (allFailedMessage all "No models data found in API response"))
             (snd (fetchModels "ua" "k" emptyCatalogHost)));
      [reflexivity | discriminate | vm_compute; reflexivity].
  - apply (Hlegacy "k" emptyCatalogHost
             (ErrorObj "No models data found in validated API response")
             (snd (Legacy.fetchModels "ua" "k" emptyCatalogHost)));
      [reflexivity | discriminate | vm_compute; reflexivity].
Defined.

(** ** Suffix composition *)

Lemma merge_noOverride (t : FeatureComposer.FeatureToggleSnapshot) :
  FeatureComposer.merge t FeatureComposer.noOverride = t.
Proof. destruct t; reflexivity. Qed.

(** C7. For every base id and every valid snapshot, [compose] appends the
    search marker first and the memory marker second. With search enabled
    in standard mode and memory enabled, the result is
    [baseId + ":online:memory"] when the days are the platform default (30)
    and [baseId + ":online:memory-{days}"] otherwise. *)
Theorem compose_suffix_order (base : string)
    (toggles : FeatureComposer.FeatureToggleSnapshot) :
  FeatureComposer.validate toggles = None ->
  exists request,
    FeatureComposer.compose base toggles FeatureComposer.noOverride
    = inr request
    /\ FeatureComposer.suffix request
       = base +:+ FeatureComposer.searchToken toggles
              +:+ FeatureComposer.memoryToken toggles
    /\ (FeatureComposer.search_enabled toggles = true ->
        FeatureComposer.search_mode toggles = "standard" ->
        FeatureComposer.memory_enabled toggles = true ->
        (FeatureComposer.memory_days toggles = 30 ->
         FeatureComposer.suffix request = base +:+ ":online:memory")
        /\ (FeatureComposer.memory_days toggles <> 30 ->
            FeatureComposer.suffix request
            = base +:+ ":online:memory-"
                   +:+ pretty (FeatureComposer.memory_days toggles))).
Proof.
  intros Hvalid. unfold FeatureComposer.compose.
  rewrite merge_noOverride, Hvalid.
  eexists. split; [reflexivity|]. split; [reflexivity|].
  intros Hsearch Hmode Hmemory. simpl.
  unfold FeatureComposer.searchToken, FeatureComposer.memoryToken.
  rewrite Hsearch, Hmode, Hmemory. simpl. split.
  - intros ->. reflexivity.
  - intros Hdays. apply Z.eqb_neq in Hdays.
    unfold NanoGPTConfigurationDefaults.memory_defaultDays.
    rewrite Hdays. reflexivity.
Qed.

Lemma compose_suffix_order_witness :
  suffixOf (FeatureComposer.compose "gpt-4o" (searchAndMemory 30)
              FeatureComposer.noOverride)
  = Some "gpt-4o:online:memory"
  /\ suffixOf (FeatureComposer.compose "gpt-4o" (searchAndMemory 90)
                 FeatureComposer.noOverride)
     = Some "gpt-4o:online:memory-90".
Proof.
  destruct (compose_suffix_order "gpt-4o" (searchAndMemory 30) eq_refl)
    as (r30 & Hrun30 & _ & Hsuffix30).
  destruct (compose_suffix_order "gpt-4o" (searchAndMemory 90) eq_refl)
    as (r90 & Hrun90 & _ & Hsuffix90).
  rewrite Hrun30, Hrun90. simpl.
  destruct (Hsuffix30 eq_refl eq_refl eq_refl) as [H30 _].
  destruct (Hsuffix90 eq_refl eq_refl eq_refl) as [_ H90].
  rewrite (H30 eq_refl), (H90 ltac:(discriminate)).
  split; reflexivity.
Defined.

(* ================================================================== *)
(** * Further properties *)
(* ================================================================== *)

(** ** Worlds that differ by their trace *)

Lemma record_extend e w : record e w = extend w [e].
Proof. reflexivity. Qed.

Lemma extend_extend w a b : extend (extend w a) b = extend w (a ++ b).
Proof. unfold extend. simpl. rewrite <- app_assoc. reflexivity. Qed.

Lemma extend_nil w : extend w [] = w.
Proof. destruct w. unfold extend. simpl. rewrite app_nil_r. reflexivity. Qed.

Lemma trace_extend w events : trace (extend w events) = trace w ++ events.
Proof. reflexivity. Qed.

Lemma secrets_extend w events : secrets (extend w events) = secrets w.
Proof. reflexivity. Qed.

(** ** The retry wrapper at its edges *)

(** With a policy of fewer than one attempt, [retryWithBackoff] never runs
    the operation: it rejects at once, with the value [undefined] (not an
    [Error]), and the world is untouched. *)
Theorem retry_without_attempts {T} (operation : Async T) config (w : World) :
  maxAttempts config < 1 ->
  retryWithBackoff operation config w = (Rejected thrown_undefined, w).
Proof.
  intros Hnone. unfold retryWithBackoff.
  replace (Z.to_nat (maxAttempts config)) with 0%nat by lia. reflexivity.
Qed.

Lemma retry_without_attempts_witness :
  retryWithBackoff (fetchOperation "k" (ENDPOINT_CONFIGS all) "ua")
    {| maxAttempts := 0; delayMs := 1000; backoffMultiplier := 2 |}
    oneModelHost
  = (Rejected (NonError "undefined"), oneModelHost).
Proof.
  apply (retry_without_attempts
           (fetchOperation "k" (ENDPOINT_CONFIGS all) "ua")
           {| maxAttempts := 0; delayMs := 1000; backoffMultiplier := 2 |}
           oneModelHost).
  simpl. lia.
Defined.

(** A rejection of the loop, when the loop has fuel for the attempts that
    remain, is the failure of an attempt, made an [Error]; the loop ends
    in the world that attempt left. *)
Lemma retryLoop_rejection {T} (operation : Async T) config fuel attempt
    lastError w e w' :
  1 <= attempt <= maxAttempts config ->
  maxAttempts config < attempt + Z.of_nat fuel ->
  retryLoop operation config fuel attempt lastError w = (Rejected e, w') ->
  exists w0 e0, operation w0 = (Rejected e0, w') /\ e = asError e0.
Proof.
  revert attempt lastError w.
  induction fuel as [|fuel IH]; intros attempt lastError w Hattempt Hfuel Hrun.
  - lia.
  - simpl in Hrun.
    replace (attempt <=? maxAttempts config) with true in Hrun
      by (symmetry; apply Z.leb_le; lia).
    unfold try_catch in Hrun.
    destruct (operation w) as [[v|e0] w1] eqn:Hop; [discriminate Hrun|].
    destruct (attempt =? maxAttempts config) eqn:Hlast.
    + unfold throwLast, throw in Hrun. simpl in Hrun.
      inversion Hrun; subst. eauto.
    + unfold await, setTimeout in Hrun. apply Z.eqb_neq in Hlast.
      eapply IH; [| |exact Hrun]; lia.
Qed.

(** With at least one attempt allowed, whatever [retryWithBackoff] rejects
    with is an [Error]: the failure of the last attempt made, wrapped in an
    [Error] when the operation threw something else. No timer follows that
    last attempt: the call ends in the world the attempt left. *)
Theorem retry_rejects_with_last_error {T} (operation : Async T) config
    (w : World) e w' :
  1 <= maxAttempts config ->
  retryWithBackoff operation config w = (Rejected e, w') ->
  (exists m, e = ErrorObj m)
  /\ exists w0 e0, operation w0 = (Rejected e0, w') /\ e = asError e0.
Proof.
  intros Hsome Hrun. unfold retryWithBackoff in Hrun.
  apply retryLoop_rejection in Hrun; [|lia..].
  destruct Hrun as (w0 & e0 & Hop & ->). split; [|eauto].
  destruct e0; simpl; eauto.
Qed.

Lemma retry_rejects_with_last_error_witness :
  exists m w',
    retryWithBackoff (throw (NonError "boom") : Async unit) RETRY_CONFIG
      oneModelHost
    = (Rejected (ErrorObj m), w')
    /\ timeouts (trace w') = [1000; 2000].
Proof.
  destruct (retryWithBackoff (throw (NonError "boom") : Async unit)
              RETRY_CONFIG oneModelHost) as [[v|e] w'] eqn:Hrun;
    [vm_compute in Hrun; discriminate Hrun|].
  destruct (retry_rejects_with_last_error _ RETRY_CONFIG oneModelHost e w'
              ltac:(simpl; lia) Hrun) as [[m ->] _].
  exists m, w'. split; [reflexivity|].
  vm_compute in Hrun. inversion Hrun. reflexivity.
Defined.

(** ** The endpoint fetch: what it asks, what it returns *)

Lemma fetchModelsFromEndpoint_events apiKey endpoint userAgent w :
  let request := EvFetch (url endpoint) ("Bearer " +:+ apiKey) userAgent in
  exists attempts : nat,
    (1 <= attempts <= 3)%nat
    /\ snd (fetchModelsFromEndpoint apiKey endpoint userAgent w)
       = extend w (attemptEvents request attempts).
Proof.
  intros request.
  rewrite fetchModelsFromEndpoint_run. cbv zeta. fold request.
  repeat match goal with
         | |- context [match ?x with inl _ => _ | inr _ => _ end] => destruct x
         end; simpl snd.
  all: first
         [ exists 1%nat; split; [lia|]; reflexivity
         | exists 2%nat; split; [lia|];
           unfold record, extend; simpl; rewrite <- !app_assoc; reflexivity
         | exists 3%nat; split; [lia|];
           unfold record, extend; simpl; rewrite <- !app_assoc; reflexivity ].
Qed.

(** The endpoint fetch makes one, two or three requests, all to the
    endpoint's URL with the key as bearer token, with a timer of 1000 ms
    after the first and of 2000 ms after the second, and does nothing
    else to the world. It stops before the third attempt only when an
    attempt succeeded: a rejection always comes after three requests. *)
Theorem fetch_endpoint_budget apiKey endpoint userAgent (w : World) :
  let request := EvFetch (url endpoint) ("Bearer " +:+ apiKey) userAgent in
  let run := fetchModelsFromEndpoint apiKey endpoint userAgent w in
  exists attempts : nat,
    (1 <= attempts <= 3)%nat
    /\ snd run = extend w (attemptEvents request attempts)
    /\ (forall e, fst run = Rejected e -> attempts = 3%nat).
Proof.
  intros request run. subst run.
  rewrite fetchModelsFromEndpoint_run. cbv zeta. fold request.
  repeat match goal with
         | |- context [match ?x with inl _ => _ | inr _ => _ end] => destruct x
         end; simpl fst; simpl snd.
  all: first
         [ exists 1%nat; split; [lia|]; split; [reflexivity|discriminate]
         | exists 2%nat; split; [lia|]; split; [|discriminate];
           unfold record, extend; simpl; rewrite <- !app_assoc; reflexivity
         | exists 3%nat; split; [lia|]; split; [|reflexivity];
           unfold record, extend; simpl; rewrite <- !app_assoc; reflexivity ].
Qed.

(** ** The catalogue schema *)

Lemma entry_sound path raw d :
  NanoGPTModelDetailsSchema path (Some raw) = Zod.Ok d -> entryMatches raw d.
Proof.
  unfold NanoGPTModelDetailsSchema, Zod.object.
  destruct raw as [| | | | |fields]; try discriminate.
  intros H.
  zod_step H. rename E into Eid. zod_step H. rename E into Ename.
  repeat zod_step H.
  inversion H; subst d; clear H.
  unfold Zod.field, Zod.string_ in Eid, Ename.
  exists fields. simpl.
  destruct (assoc "id" fields) as [[| | |s| |]|]; try discriminate Eid.
  destruct (assoc "name" fields) as [[| | |s'| |]|]; try discriminate Ename.
  inversion Eid. inversion Ename. auto.
Qed.

Lemma items_sound path i l ds :
  Zod.items NanoGPTModelDetailsSchema path i l = Zod.Ok ds ->
  Forall2 entryMatches l ds.
Proof.
  revert i ds. induction l as [|raw rest IH]; intros i ds H; simpl in H.
  - inversion H. constructor.
  - zod_step H. rename E into Eraw. zod_step H. inversion H; subst ds.
    constructor; [eapply entry_sound; exact Eraw | eapply IH; eassumption].
Qed.

Lemma response_sound raw parsed :
  Zod.parse NanoGPTModelsResponseSchema raw = Zod.Ok parsed ->
  exists fields items,
    raw = JObject fields
    /\ assoc "object" fields = Some (JString (response_object parsed))
    /\ assoc "data" fields = Some (JArray items)
    /\ Forall2 entryMatches items (data parsed).
Proof.
  unfold Zod.parse, NanoGPTModelsResponseSchema, Zod.object.
  destruct raw as [| | | | |fields]; try discriminate.
  intros H. zod_step H. rename E into Eobject. zod_step H. rename E into Edata.
  inversion H; subst parsed; clear H. simpl.
  unfold Zod.field, Zod.string_ in Eobject.
  unfold Zod.field, Zod.array in Edata.
  destruct (assoc "object" fields) as [[| | |s| |]|] eqn:Hobject;
    try discriminate Eobject.
  destruct (assoc "data" fields) as [[| | | |items|]|] eqn:Hdata;
    try discriminate Edata.
  inversion Eobject; subst.
  exists fields, items.
  split; [reflexivity|]. split; [exact Hobject|]. split; [exact Hdata|].
  eapply items_sound. exact Edata.
Qed.

Lemma Forall2_In_left {A B} (P : A -> B -> Prop) l k x :
  Forall2 P l k -> In x l -> exists y, In y k /\ P x y.
Proof.
  induction 1 as [|a b l k Hab Hrest IH]; intros Hin; [destruct Hin|].
  destruct Hin as [->|Hin].
  - exists b. split; [left; reflexivity|exact Hab].
  - destruct (IH Hin) as (y & Hy & Hxy). exists y. split; [right|]; assumption.
Qed.

Lemma lacksId_rejected fields items raw :
  assoc "data" fields = Some (JArray items) ->
  In raw items ->
  lacksId raw ->
  exists path,
    Zod.parse NanoGPTModelsResponseSchema (JObject fields) = Zod.Fail path.
Proof.
  intros Hdata Hin Hlacks.
  destruct (Zod.parse NanoGPTModelsResponseSchema (JObject fields))
    as [parsed|path] eqn:Hparse; [|eauto].
  apply response_sound in Hparse.
  destruct Hparse as (fields' & items' & Hraw & _ & Hdata' & Hall).
  inversion Hraw; subst fields'. rewrite Hdata in Hdata'.
  inversion Hdata'; subst items'.
  destruct (Forall2_In_left _ _ _ _ Hall Hin) as (d & _ & Hmatch).
  destruct Hmatch as (f & -> & Hid & _).
  exfalso. eapply Hlacks; eauto.
Qed.

(** Whatever the catalogue schema accepts is an object with a string
    [object] and an array [data]; the parsed entries are as many as the
    raw ones and, in order, each raw entry is an object whose [id] and
    [name] are the strings of the parsed entry. *)
Theorem schema_accepts_only_catalogues (raw : Json) parsed :
  Zod.parse NanoGPTModelsResponseSchema raw = Zod.Ok parsed ->
  exists fields items,
    raw = JObject fields
    /\ assoc "object" fields = Some (JString (response_object parsed))
    /\ assoc "data" fields = Some (JArray items)
    /\ length (data parsed) = length items
    /\ Forall2 entryMatches items (data parsed).
Proof.
  intros Hparse. apply response_sound in Hparse.
  destruct Hparse as (fields & items & Hraw & Hobject & Hdata & Hall).
  exists fields, items. repeat split; try assumption.
  symmetry. eapply Forall2_length. exact Hall.
Qed.

Lemma schema_accepts_only_catalogues_witness :
  exists parsed,
    Zod.parse NanoGPTModelsResponseSchema
      (catalog [entry "gpt-4o" "GPT-4o"; entry "gpt-4o-mini" "GPT-4o mini"])
    = Zod.Ok parsed
    /\ length (data parsed) = 2%nat.
Proof.
  destruct (Zod.parse NanoGPTModelsResponseSchema
              (catalog [entry "gpt-4o" "GPT-4o";
                        entry "gpt-4o-mini" "GPT-4o mini"]))
    as [parsed|path] eqn:Hparse; [|vm_compute in Hparse; discriminate Hparse].
  exists parsed. split; [reflexivity|].
  destruct (schema_accepts_only_catalogues _ _ Hparse)
    as (fields & items & Hraw & _ & Hdata & Hlen & _).
  injection Hraw as <-. simpl in Hdata. injection Hdata as <-.
  exact Hlen.
Defined.

(** A 2xx response whose [data] array holds an entry without a string [id]
    makes the attempt fail with the validation error ("API response
    validation failed: ..."), whatever else the response holds; the
    request has been made. *)
Theorem missing_id_is_validation_failure apiKey endpoint userAgent (w : World)
    response fields items raw :
  network w (trace w) (url endpoint) = FetchResolves response ->
  ok response = true ->
  bodyJson response = inr (JObject fields) ->
  assoc "data" fields = Some (JArray items) ->
  In raw items ->
  lacksId raw ->
  exists path,
    fetchOperation apiKey endpoint userAgent w
    = (Rejected
         (ErrorObj ("API response validation failed: " +:+ Zod.message path)),
       record (EvFetch (url endpoint) ("Bearer " +:+ apiKey) userAgent) w).
Proof.
  intros Hreply Hok Hbody Hdata Hin Hlacks.
  destruct (lacksId_rejected fields items raw Hdata Hin Hlacks)
    as (path & Hparse).
  exists path.
  rewrite fetchOperation_run, Hreply. unfold readReply, readResponse.
  rewrite Hok, Hbody, Hparse. reflexivity.
Qed.

Lemma missing_id_is_validation_failure_witness :
  exists path,
    fst (fetchOperation "k" (ENDPOINT_CONFIGS all) "ua"
           (host (scripted [jsonResponse 200 "OK" missingIdCatalog])
              (Some "k") None))
    = Rejected
        (ErrorObj ("API response validation failed: " +:+ Zod.message path)).
Proof.
  destruct (missing_id_is_validation_failure "k" (ENDPOINT_CONFIGS all) "ua"
              (host (scripted [jsonResponse 200 "OK" missingIdCatalog])
                 (Some "k") None)
              {| status := 200; statusText := "OK"; bodyText := "";
                 bodyJson := inr missingIdCatalog |}
              [("object", JString "list");
               ("data",
                JArray [entry "gpt-4o" "GPT-4o";
                        JObject [("object", JString "model");
                                 ("name", JString "x")]])]
              [entry "gpt-4o" "GPT-4o";
               JObject [("object", JString "model"); ("name", JString "x")]]
              (JObject [("object", JString "model"); ("name", JString "x")])
              eq_refl eq_refl eq_refl eq_refl
              ltac:(right; left; reflexivity)
              ltac:(intros f s Hf; inversion Hf; subst f; discriminate))
    as (path & Hrun).
  exists path. rewrite Hrun. reflexivity.
Defined.

(** ** The endpoint fetch: its result *)

Lemma readResponse_resolved endpoint response result :
  readResponse endpoint response = inr result ->
  ok response = true
  /\ exists raw parsed,
       bodyJson response = inr raw
       /\ Zod.parse NanoGPTModelsResponseSchema raw = Zod.Ok parsed
       /\ data parsed <> []
       /\ result
          = {| models :=
                 List.map (fun model =>
                   {| details := model; endpoint := url endpoint;
                      category := config_category endpoint |})
                   (data parsed);
               result_endpoint := url endpoint |}.
Proof.
  unfold readResponse.
  destruct (ok response); [|discriminate]. simpl.
  destruct (bodyJson response) as [reason|raw]; [discriminate|].
  destruct (Zod.parse NanoGPTModelsResponseSchema raw) as [parsed|path] eqn:Hp;
    [|discriminate].
  destruct (data parsed) as [|d rest] eqn:Hdata; [discriminate|].
  intros H. inversion H. split; [reflexivity|].
  exists raw, parsed. rewrite Hdata. repeat split; [exact Hp|discriminate].
Qed.

Lemma fetchModelsFromEndpoint_resolved apiKey endpoint userAgent w result w' :
  fetchModelsFromEndpoint apiKey endpoint userAgent w = (Resolved result, w') ->
  exists tr response,
    network w tr (url endpoint) = FetchResolves response
    /\ readResponse endpoint response = inr result.
Proof.
  rewrite fetchModelsFromEndpoint_run. cbv zeta.
  repeat match goal with
         | |- context [match ?x with inl _ => _ | inr _ => _ end] =>
             let E := fresh "E" in destruct x eqn:E
         end; intros H; inversion H; subst;
    match goal with
    | E : readReply _ (network w ?tr _) = inr _ |- _ =>
        exists tr; unfold readReply in E;
        destruct (network w tr (url endpoint)) as [reason|response];
          [discriminate E|exists response; split; [reflexivity|exact E]]
    end.
Qed.

Lemma Forall2_map_right {A B C} (P : A -> C -> Prop) (f : B -> C) l k :
  Forall2 (fun a b => P a (f b)) l k -> Forall2 P l (List.map f k).
Proof. induction 1; simpl; constructor; assumption. Qed.

(** When the endpoint fetch resolves, its catalogue is not empty, every
    model carries the endpoint's category and URL, and the models are, in
    number and order, the entries of a 2xx response the endpoint gave. *)
Theorem fetch_endpoint_result_tagged apiKey (ep : EndpointConfig) userAgent
    (w : World) result w' :
  fetchModelsFromEndpoint apiKey ep userAgent w = (Resolved result, w') ->
  models result <> []
  /\ result_endpoint result = url ep
  /\ Forall (fun m => category m = config_category ep /\ endpoint m = url ep)
       (models result)
  /\ exists tr response fields items,
       network w tr (url ep) = FetchResolves response
       /\ ok response = true
       /\ bodyJson response = inr (JObject fields)
       /\ assoc "data" fields = Some (JArray items)
       /\ length (models result) = length items
       /\ Forall2 (fun raw m => entryMatches raw (details m)) items
            (models result).
Proof.
  intros Hrun.
  destruct (fetchModelsFromEndpoint_resolved _ _ _ _ _ _ Hrun)
    as (tr & response & Hreply & Hread).
  destruct (readResponse_resolved _ _ _ Hread)
    as (Hok & raw & parsed & Hbody & Hparse & Hdata & ->).
  destruct (response_sound _ _ Hparse)
    as (fields & items & -> & _ & Hitems & Hall).
  simpl. split; [|split; [reflexivity|split]].
  - destruct (data parsed); [congruence|discriminate].
  - apply List.Forall_forall. intros m Hm. apply in_map_iff in Hm.
    destruct Hm as (d & <- & _). split; reflexivity.
  - exists tr, response, fields, items.
    repeat split; try assumption.
    + rewrite length_map. symmetry. eapply Forall2_length. exact Hall.
    + apply Forall2_map_right. exact Hall.
Qed.

Lemma fetch_endpoint_result_tagged_witness :
  exists result w',
    fetchModelsFromEndpoint "k" (ENDPOINT_CONFIGS premium) "ua" oneModelHost
    = (Resolved result, w')
    /\ List.map category (models result) = [premium].
Proof.
  destruct (fetchModelsFromEndpoint "k" (ENDPOINT_CONFIGS premium) "ua"
              oneModelHost) as [[result|e] w'] eqn:Hrun;
    [|vm_compute in Hrun; discriminate Hrun].
  exists result, w'. split; [reflexivity|].
  destruct (fetch_endpoint_result_tagged _ _ _ _ _ _ Hrun)
    as (_ & _ & Htags & tr & response & fields & items & _ & _ & _ & _
        & Hlen & _).
  assert (length (models result) = 1%nat) as Hone.
  { vm_compute in Hrun. inversion Hrun. reflexivity. }
  destruct (models result) as [|m [|m' rest]]; try discriminate Hone.
  inversion Htags as [|m0 l0 [Hcat _] _]; subst.
  simpl. rewrite Hcat. reflexivity.
Defined.

(** ** The API key: stored, prompted for, declined *)

Lemma trim_empty_of_empty entered : trim entered <> "" -> entered <> "".
Proof. intros Hne ->. apply Hne. reflexivity. Qed.

Lemma ensureApiKey_stored silent w key :
  secrets w !! API_KEY = Some key ->
  key <> "" ->
  ensureApiKey silent w = (Resolved (Some key), w).
Proof.
  intros Hkey Hne. unfold ensureApiKey, await, secrets_get.
  rewrite Hkey, (truthy_Some_nonempty _ Hne). reflexivity.
Qed.

Lemma ensureApiKey_prompted w entered :
  truthy (secrets w !! API_KEY) = false ->
  inputBox w (trace w) = Some entered ->
  trim entered <> "" ->
  ensureApiKey false w
  = (Resolved (Some (trim entered)),
     record (EvSecretStore API_KEY (trim entered))
       {| network := network w; inputBox := inputBox w;
          modelTypes := modelTypes w;
          secrets := <[API_KEY := trim entered]> (secrets w);
          trace := trace w ++ [EvInputBox] |}).
Proof.
  intros Hnone Hbox Htrim.
  unfold ensureApiKey, await, secrets_get, showInputBox.
  rewrite Hnone. cbn [negb andb]. rewrite Hbox.
  rewrite (truthy_Some_nonempty _ (trim_empty_of_empty _ Htrim)).
  cbn [fmap option_fmap option_map].
  rewrite (truthy_Some_nonempty _ Htrim). reflexivity.
Qed.

(** A usable stored key is returned as it is, silently or not: no input
    box is shown and nothing changes. *)
Theorem ensureApiKey_keeps_stored_key silent (w : World) key :
  secrets w !! API_KEY = Some key ->
  key <> "" ->
  ensureApiKey silent w = (Resolved (Some key), w).
Proof. apply ensureApiKey_stored. Qed.

Lemma ensureApiKey_keeps_stored_key_witness :
  ensureApiKey false oneModelHost = (Resolved (Some "k"), oneModelHost).
Proof.
  apply (ensureApiKey_keeps_stored_key false oneModelHost "k");
    [reflexivity|discriminate].
Defined.

(** Without a usable stored key, a call that is not silent shows one input
    box; when the user enters a text that is not blank, its trimmed form is
    returned and stored under the key name (one box, then one write), and
    a silent call made afterwards returns that same key. *)
Theorem ensureApiKey_prompt_round_trip (w : World) entered :
  truthy (secrets w !! API_KEY) = false ->
  inputBox w (trace w) = Some entered ->
  trim entered <> "" ->
  let run := ensureApiKey false w in
  fst run = Resolved (Some (trim entered))
  /\ secrets (snd run) = <[API_KEY := trim entered]> (secrets w)
  /\ trace (snd run)
     = trace w ++ [EvInputBox; EvSecretStore API_KEY (trim entered)]
  /\ ensureApiKey true (snd run) = (Resolved (Some (trim entered)), snd run).
Proof.
  intros Hnone Hbox Htrim run. subst run.
  rewrite (ensureApiKey_prompted w entered Hnone Hbox Htrim).
  repeat split.
  - simpl. rewrite <- app_assoc. reflexivity.
  - rewrite ensureApiKey_silent_run. simpl. rewrite lookup_insert_eq.
    reflexivity.
Qed.

Lemma ensureApiKey_prompt_round_trip_witness :
  let entered := " " +:+ noBreakSpace +:+ "sk-123" +:+ noBreakSpace +:+ " " in
  let w := promptHost (scripted []) None (Some entered) in
  fst (ensureApiKey false w) = Resolved (Some "sk-123")
  /\ fst (ensureApiKey true (snd (ensureApiKey false w)))
     = Resolved (Some "sk-123").
Proof.
  intros entered w.
  destruct (ensureApiKey_prompt_round_trip w entered eq_refl eq_refl
              ltac:(vm_compute; discriminate)) as (Hrun & _ & _ & Hagain).
  rewrite Hagain. split; [exact Hrun|reflexivity].
Defined.

(** Without a usable stored key, when the user dismisses the input box or
    enters only white space, nothing is stored: the call returns what the
    storage held and the only thing that happened is the input box. *)
Theorem ensureApiKey_prompt_declined (w : World) :
  truthy (secrets w !! API_KEY) = false ->
  (inputBox w (trace w) = None
   \/ exists entered, inputBox w (trace w) = Some entered /\ trim entered = "") ->
  ensureApiKey false w = (Resolved (secrets w !! API_KEY), record EvInputBox w).
Proof.
  intros Hnone Hbox. unfold ensureApiKey, await, secrets_get, showInputBox.
  rewrite Hnone. cbn [negb andb].
  destruct Hbox as [->|(entered & -> & Hblank)]; [reflexivity|].
  cbn [fmap option_fmap option_map]. rewrite Hblank.
  cbn [truthy String.eqb negb]. rewrite andb_false_r.
  reflexivity.
Qed.

Lemma ensureApiKey_prompt_declined_witness :
  let w := promptHost (scripted []) None (Some (" " +:+ noBreakSpace +:+ " ")) in
  ensureApiKey false w = (Resolved None, record EvInputBox w).
Proof.
  intros w.
  apply (ensureApiKey_prompt_declined w); [reflexivity|].
  right. exists (" " +:+ noBreakSpace +:+ " "). split; reflexivity.
Defined.

(** ** What a resolution does to the world *)

Lemma endpoint_url_known c : In (url (ENDPOINT_CONFIGS c)) endpointUrls.
Proof. destruct c; simpl; tauto. Qed.

Lemma attemptEvents_fetchEvent apiKey userAgent c attempts :
  Forall (fetchEvent apiKey userAgent)
    (attemptEvents
       (EvFetch (url (ENDPOINT_CONFIGS c)) ("Bearer " +:+ apiKey) userAgent)
       attempts).
Proof.
  pose proof (endpoint_url_known c) as Hurl.
  destruct attempts as [|[|[|n]]]; simpl;
    repeat (first [apply List.Forall_nil | apply List.Forall_cons]);
    simpl; auto.
Qed.

Lemma attemptEvents_fetches request attempts :
  isFetch request = true ->
  (attempts <= 3)%nat ->
  length (fetches (attemptEvents request attempts)) = attempts.
Proof.
  intros Hreq Hle.
  destruct attempts as [|[|[|[|n]]]]; simpl; rewrite ?Hreq; simpl;
    try reflexivity; lia.
Qed.

Lemma attemptEvents_notifications request attempts :
  isNotification request = false ->
  notifications (attemptEvents request attempts) = [].
Proof.
  intros Hreq.
  destruct attempts as [|[|[|n]]]; simpl; rewrite ?Hreq; reflexivity.
Qed.

Lemma attemptEvents_head request attempts :
  (1 <= attempts)%nat ->
  exists rest, attemptEvents request attempts = request :: rest.
Proof. destruct attempts as [|[|[|n]]]; simpl; [lia|eauto..]. Qed.

(** The events of a resolution over [categories]: requests and timers
    only, at most three requests a category, the first request going to
    the first category. *)
Lemma attemptInOrder_events apiKey userAgent categories w :
  exists events,
    snd (attemptInOrder apiKey userAgent categories w) = extend w events
    /\ Forall (fetchEvent apiKey userAgent) events
    /\ notifications events = []
    /\ (length (fetches events) <= 3 * length categories)%nat
    /\ match categories with
       | [] => events = []
       | c :: _ =>
           exists rest,
             events
             = EvFetch (url (ENDPOINT_CONFIGS c)) ("Bearer " +:+ apiKey)
                 userAgent :: rest
       end.
Proof.
  revert w. induction categories as [|c rest IH]; intros w.
  - exists []. simpl. rewrite extend_nil. repeat split; auto.
  - simpl.
    destruct (fetchModelsFromEndpoint_events apiKey (ENDPOINT_CONFIGS c)
                userAgent w) as (n & Hn & Hworld).
    cbv zeta in Hworld.
    set (request := EvFetch (url (ENDPOINT_CONFIGS c)) ("Bearer " +:+ apiKey)
                      userAgent) in *.
    destruct (attemptEvents_head request n ltac:(lia)) as (tail & Hhead).
    destruct (fetchModelsFromEndpoint apiKey (ENDPOINT_CONFIGS c) userAgent w)
      as [[result|e] w1]; simpl in Hworld; subst w1.
    + exists (attemptEvents request n). simpl. repeat split.
      * apply attemptEvents_fetchEvent.
      * apply attemptEvents_notifications. reflexivity.
      * rewrite attemptEvents_fetches; [lia|reflexivity|lia].
      * eauto.
    + destruct (IH (extend w (attemptEvents request n)))
        as (events & Hrest & Hall & Hnotes & Hcount & _).
      destruct (attemptInOrder apiKey userAgent rest
                  (extend w (attemptEvents request n)))
        as [[failures found] w2]. simpl in Hrest. subst w2.
      exists (attemptEvents request n ++ events). simpl. repeat split.
      * apply extend_extend.
      * apply Forall_app. split; [apply attemptEvents_fetchEvent|exact Hall].
      * rewrite notifications_app, Hnotes,
          attemptEvents_notifications by reflexivity. reflexivity.
      * rewrite fetches_app, length_app,
          attemptEvents_fetches by (reflexivity || lia). lia.
      * rewrite Hhead. simpl. eauto.
Qed.

Lemma resolutionOrder_length preferred :
  length (resolutionOrder preferred) = 3%nat.
Proof. destruct preferred; reflexivity. Qed.

Lemma fetchModels_events userAgent apiKey w :
  exists events,
    snd (fetchModels userAgent apiKey w) = extend w events
    /\ Forall (fetchEvent apiKey userAgent) events
    /\ (length (fetches events) <= 9)%nat
    /\ exists rest,
         events
         = EvFetch (url (ENDPOINT_CONFIGS (getCurrentModelType w)))
             ("Bearer " +:+ apiKey) userAgent :: rest.
Proof.
  rewrite fetchModels_run. cbv zeta.
  destruct (attemptInOrder_events apiKey userAgent
              (resolutionOrder (getCurrentModelType w)) w)
    as (events & Hworld & Hall & _ & Hcount & rest & Hhead).
  rewrite resolutionOrder_length in Hcount.
  destruct (attemptInOrder apiKey userAgent _ w) as [[failures found] w'].
  simpl in Hworld. subst w'.
  assert (forall note,
            isFetch note = false -> fetchEvent apiKey userAgent note ->
            exists events',
              record note (extend w events) = extend w events'
              /\ Forall (fetchEvent apiKey userAgent) events'
              /\ (length (fetches events') <= 9)%nat
              /\ exists rest',
                   events'
                   = EvFetch (url (ENDPOINT_CONFIGS (getCurrentModelType w)))
                       ("Bearer " +:+ apiKey) userAgent :: rest')
    as Hnote.
  { intros note Hquiet Hallowed. exists (events ++ [note]). repeat split.
    - rewrite record_extend. apply extend_extend.
    - apply Forall_app. split; [exact Hall|]. constructor; [exact Hallowed|].
      constructor.
    - rewrite fetches_app, length_app. simpl. rewrite Hquiet. simpl. lia.
    - rewrite Hhead. simpl. eauto. }
  destruct found as [[c result]|]; destruct failures; simpl snd.
  - exists events. repeat split; eauto.
  - apply Hnote; [reflexivity|exact I].
  - apply Hnote; [reflexivity|exact I].
  - apply Hnote; [reflexivity|exact I].
Qed.

(** In a resolution, the API key goes nowhere but to the three endpoints,
    as bearer token: whatever the servers answer, [fetchModels] only
    requests those URLs (the preferred one first, nine requests at most),
    waits 1000 or 2000 ms and shows messages. It shows no input box and
    leaves the secret storage and the settings as they were. *)
Theorem fetchModels_key_exposure userAgent apiKey (w : World) :
  let run := fetchModels userAgent apiKey w in
  secrets (snd run) = secrets w
  /\ modelTypes (snd run) = modelTypes w
  /\ exists events,
       trace (snd run) = trace w ++ events
       /\ Forall (fetchEvent apiKey userAgent) events
       /\ (1 <= length (fetches events) <= 9)%nat.
Proof.
  intros run. subst run.
  destruct (fetchModels_events userAgent apiKey w)
    as (events & -> & Hall & Hcount & rest & Hhead).
  split; [reflexivity|]. split; [reflexivity|].
  exists events. split; [reflexivity|]. split; [exact Hall|].
  split; [|exact Hcount]. rewrite Hhead. simpl. lia.
Qed.

Lemma fetchModelsFromEndpoint_tags apiKey (ep : EndpointConfig) userAgent w
    result w' :
  fetchModelsFromEndpoint apiKey ep userAgent w = (Resolved result, w') ->
  models result <> []
  /\ result_endpoint result = url ep
  /\ Forall (fun m => category m = config_category ep) (models result).
Proof.
  intros Hrun.
  destruct (fetchModelsFromEndpoint_resolved _ _ _ _ _ _ Hrun)
    as (tr & response & _ & Hread).
  destruct (readResponse_resolved _ _ _ Hread)
    as (_ & raw & parsed & _ & _ & Hdata & ->).
  simpl. split; [|split; [reflexivity|]].
  - destruct (data parsed); [congruence|discriminate].
  - apply List.Forall_forall. intros m Hm. apply in_map_iff in Hm.
    destruct Hm as (d & <- & _). reflexivity.
Qed.

(** Where the category found by a resolution comes from. *)
Lemma attemptInOrder_found apiKey userAgent categories w failures c result w1 :
  attemptInOrder apiKey userAgent categories w
  = (failures, Some (c, result), w1) ->
  (exists w0,
     fetchModelsFromEndpoint apiKey (ENDPOINT_CONFIGS c) userAgent w0
     = (Resolved result, w1))
  /\ exists first rest,
       categories = first :: rest
       /\ ((failures = [] /\ c = first) \/ (failures <> [] /\ In c rest)).
Proof.
  revert w failures. induction categories as [|c0 rest IH];
    intros w failures H; simpl in H; [discriminate H|].
  destruct (fetchModelsFromEndpoint apiKey (ENDPOINT_CONFIGS c0) userAgent w)
    as [[r|e] w2] eqn:Hrun.
  - inversion H; subst. split; [eauto|]. exists c, rest. auto.
  - destruct (attemptInOrder apiKey userAgent rest w2)
      as [[failures' found'] w3] eqn:Hrest.
    inversion H; subst.
    destruct (IH _ _ Hrest) as (Hw0 & first & rest' & -> & Hwhere).
    split; [exact Hw0|]. exists c0, (first :: rest'). split; [reflexivity|].
    right. split; [discriminate|].
    destruct Hwhere as [[_ ->]|[_ Hin]]; [left|right]; auto.
Qed.

Lemma resolutionOrder_shape preferred first rest :
  resolutionOrder preferred = first :: rest ->
  first = preferred /\ forall c, In c rest -> c <> preferred.
Proof.
  destruct preferred; intros H; inversion H; subst;
    (split; [reflexivity|]); intros c Hc; simpl in Hc;
    intuition (subst; discriminate).
Qed.

Lemma category_of_config c : config_category (ENDPOINT_CONFIGS c) = c.
Proof. destruct c; reflexivity. Qed.

(** When [fetchModels] resolves, the catalogue is not empty and all its
    models carry one category, the one whose endpoint answered. Either it
    is the preferred category and no message was shown, or it is another
    one and exactly one message was shown, naming that category. *)
Theorem fetchModels_origin userAgent apiKey (w : World) result w' :
  fetchModels userAgent apiKey w = (Resolved result, w') ->
  exists c,
    models result <> []
    /\ Forall (fun m => category m = c) (models result)
    /\ result_endpoint result = url (ENDPOINT_CONFIGS c)
    /\ ((c = getCurrentModelType w
         /\ notifications (trace w') = notifications (trace w))
        \/ (c <> getCurrentModelType w
            /\ notifications (trace w')
               = notifications (trace w)
                 ++ [EvInformationMessage
                       ("Primary endpoint unavailable. Using "
                        +:+ displayName (ENDPOINT_CONFIGS c)
                        +:+ " instead.")])).
Proof.
  rewrite fetchModels_run. cbv zeta.
  destruct (attemptInOrder_events apiKey userAgent
              (resolutionOrder (getCurrentModelType w)) w)
    as (events & Hworld & _ & Hquiet & _).
  destruct (attemptInOrder apiKey userAgent _ w)
    as [[failures found] w1] eqn:Hresolution.
  simpl in Hworld. subst w1.
  destruct found as [[c r]|]; [|destruct failures; discriminate].
  destruct (attemptInOrder_found _ _ _ _ _ _ _ _ Hresolution)
    as ((w0 & Hfetch) & first & rest & Horder & Hwhere).
  destruct (fetchModelsFromEndpoint_tags _ _ _ _ _ _ Hfetch)
    as (Hsome & Hurl & Htags).
  rewrite category_of_config in Htags.
  apply resolutionOrder_shape in Horder. destruct Horder as [-> Hothers].
  intros H. exists c.
  destruct failures as [|e failures]; inversion H; subst result w';
    (split; [exact Hsome|]; split; [exact Htags|]; split; [exact Hurl|]).
  - left. destruct Hwhere as [[_ ->]|[Hne _]]; [|congruence].
    split; [reflexivity|].
    rewrite trace_extend, notifications_app, Hquiet. apply app_nil_r.
  - right. destruct Hwhere as [[Hnil _]|[_ Hin]]; [discriminate Hnil|].
    split.
    + apply Hothers. exact Hin.
    + rewrite trace_record, trace_extend, !notifications_app, Hquiet.
      rewrite app_nil_r. reflexivity.
Qed.

Lemma fetchModels_origin_witness :
  exists result w',
    fetchModels "ua" "k"
      (host (byUrl (fun u =>
               if String.eqb u MODEL_ENDPOINTS.premium
               then errorResponse 500 "Internal Server Error" ""
               else jsonResponse 200 "OK" (catalog [entry "gpt-4o" "GPT-4o"])))
         (Some "k") (Some premium))
    = (Resolved result, w')
    /\ List.map category (models result) = [all]
    /\ length (notifications (trace w')) = 1%nat.
Proof.
  set (w := host _ _ _).
  destruct (fetchModels "ua" "k" w) as [[result|e] w'] eqn:Hrun;
    [|vm_compute in Hrun; discriminate Hrun].
  exists result, w'. split; [reflexivity|].
  destruct (fetchModels_origin "ua" "k" w result w' Hrun)
    as (c & _ & Htags & Hurl & Hnotice).
  assert (c = all) as ->.
  { vm_compute in Hrun. inversion Hrun as [[Hresult Hw']]. subst result.
    destruct c; [reflexivity|discriminate Hurl|discriminate Hurl]. }
  assert (length (models result) = 1%nat) as Hone.
  { vm_compute in Hrun. inversion Hrun. reflexivity. }
  destruct (models result) as [|m [|m' rest]]; try discriminate Hone.
  inversion Htags as [|m0 l0 Hcat _]; subst. simpl. rewrite Hcat.
  split; [reflexivity|].
  destruct Hnotice as [[Hpreferred _]|[_ ->]]; [discriminate Hpreferred|].
  reflexivity.
Defined.

(** ** The provider call: messages, descriptors, frame *)

Lemma prepare_with_key userAgent options token w apiKey w1 :
  ensureApiKey (silent options) w = (Resolved (Some apiKey), w1) ->
  apiKey <> "" ->
  prepareLanguageModelChatInformation userAgent options token w
  = match fetchModels userAgent apiKey w1 with
    | (Resolved result, w2) => (Resolved (processModels (models result) []), w2)
    | (Rejected e, w2) =>
        (Resolved [],
         if silent options then w2
         else record
                (EvInformationMessage
                   ("Unable to load NanoGPT models: "
                    +:+ messageOr "Unknown error occurred" e
                    +:+ ". Please check your API key and try again."))
                w2)
    end.
Proof.
  intros Hkey Hne. unfold prepareLanguageModelChatInformation, await.
  rewrite Hkey, (truthy_Some_nonempty _ Hne). simpl.
  unfold loadModels, try_catch, await.
  destruct (fetchModels userAgent apiKey w1) as [[result|e] w2];
    [reflexivity|].
  destruct (silent options); reflexivity.
Qed.

(** When every endpoint fails, the user is told even by a silent call:
    with a usable stored key, a silent call resolves with the empty list
    after the one error message of [fetchModels], and a call that is not
    silent shows a second message, quoting the error. *)
Theorem prepare_all_fail_messages userAgent (token : CancellationToken)
    (w : World) apiKey first subsequent w' :
  secrets w !! API_KEY = Some apiKey ->
  apiKey <> "" ->
  attemptInOrder apiKey userAgent (resolutionOrder (getCurrentModelType w)) w
  = (first :: subsequent, None, w') ->
  exists m,
    first = ErrorObj m
    /\ prepareLanguageModelChatInformation userAgent {| silent := true |}
         token w
       = (Resolved [], record (allFailedNotice m) w')
    /\ prepareLanguageModelChatInformation userAgent {| silent := false |}
         token w
       = (Resolved [],
          record
            (EvInformationMessage
               ("Unable to load NanoGPT models: "
                +:+ allFailedMessage (getCurrentModelType w) m
                +:+ ". Please check your API key and try again."))
            (record (allFailedNotice m) w')).
Proof.
  intros Hkey Hne Hall.
  assert (exists m, first = ErrorObj m) as [m ->].
  { unfold resolutionOrder in Hall. simpl in Hall.
    destruct (fetchModelsFromEndpoint apiKey
                (ENDPOINT_CONFIGS (getCurrentModelType w)) userAgent w)
      as [[result|e] w1] eqn:Hprimary; [discriminate Hall|].
    destruct (attemptInOrder apiKey userAgent _ w1) as [[failures found] w2].
    inversion Hall; subst.
    eapply fetchModelsFromEndpoint_throws_Error. exact Hprimary. }
  exists m. split; [reflexivity|].
  rewrite !(prepare_with_key userAgent _ token w apiKey w
              (ensureApiKey_stored _ w apiKey Hkey Hne) Hne).
  rewrite fetchModels_run. cbv zeta. rewrite Hall. simpl.
  split; reflexivity.
Qed.

Lemma prepare_all_fail_messages_witness :
  length (notifications
            (trace (snd (prepareLanguageModelChatInformation "ua"
                           {| silent := true |} notCancelled
                           (refusingHost 500 "Internal Server Error")))))
  = 1%nat
  /\ length (notifications
               (trace (snd (prepareLanguageModelChatInformation "ua"
                              {| silent := false |} notCancelled
                              (refusingHost 500 "Internal Server Error")))))
     = 2%nat.
Proof.
  destruct refusingHost_500_resolution as (w' & Hall).
  destruct (prepare_all_fail_messages "ua" notCancelled
              (refusingHost 500 "Internal Server Error") "k" _ _ w'
              eq_refl ltac:(discriminate) Hall)
    as (m & _ & Hsilent & Hloud).
  rewrite Hsilent, Hloud. simpl snd. rewrite !trace_record.
  destruct (attemptInOrder_events "k" "ua" (resolutionOrder premium)
              (refusingHost 500 "Internal Server Error"))
    as (events & Hworld & _ & Hquiet & _).
  rewrite Hall in Hworld. simpl in Hworld. subst w'.
  rewrite trace_extend, !notifications_app, Hquiet. split; reflexivity.
Defined.

Lemma pushed_wellFormed m info : pushed m = Some info -> wellFormedInfo info.
Proof.
  unfold pushed, modelInfo.
  destruct (String.eqb (id (details m)) "") eqn:Hid; [discriminate|].
  intros H. inversion H; subst info. unfold wellFormedInfo. simpl.
  apply String.eqb_neq in Hid. auto.
Qed.

Lemma pushedLegacy_wellFormed d info :
  pushedLegacy d = Some info -> wellFormedInfo info.
Proof.
  unfold pushedLegacy, Legacy.modelInfo.
  destruct (String.eqb (id d) "") eqn:Hid; [discriminate|].
  intros H. inversion H; subst info. unfold wellFormedInfo. simpl.
  apply String.eqb_neq in Hid. auto.
Qed.

Lemma omap_Forall {A B} (f : A -> option B) (P : B -> Prop) l :
  (forall a b, f a = Some b -> P b) -> Forall P (omap f l).
Proof.
  intros Hf. induction l as [|a l IH]; simpl; [constructor|].
  destruct (f a) as [b|] eqn:Hfa; [constructor; eauto|exact IH].
Qed.

(** Every descriptor the provider hands out, whatever the servers and the
    user answer, has a non-empty id, declares tool calling, and carries
    the fixed detail, family and version. The same holds of the
    single-endpoint service. *)
Theorem prepare_descriptors_well_formed userAgent options
    (token : CancellationToken) (w : World) :
  (forall infos w',
     prepareLanguageModelChatInformation userAgent options token w
     = (Resolved infos, w') ->
     Forall wellFormedInfo infos)
  /\ (forall infos w',
        Legacy.prepareLanguageModelChatInformation userAgent options token w
        = (Resolved infos, w') ->
        Forall wellFormedInfo infos).
Proof.
  split; intros infos w'.
  - unfold prepareLanguageModelChatInformation, await.
    destruct (ensureApiKey (silent options) w) as [[k|e] w1];
      [|discriminate].
    destruct (negb (truthy k)).
    { intros H. inversion H. constructor. }
    destruct (loadModels_run userAgent (default "" k) options w1) as (w2 & ->).
    destruct (fetchModels userAgent (default "" k) w1) as [[result|e] w3];
      intros H; inversion H; subst; [|constructor].
    rewrite processModels_run. simpl.
    apply omap_Forall. apply pushed_wellFormed.
  - unfold Legacy.prepareLanguageModelChatInformation, await.
    destruct (Legacy.ensureApiKey (silent options) w) as [[k|e] w1];
      [|discriminate].
    destruct (negb (truthy k)).
    { intros H. inversion H. constructor. }
    destruct (loadModels_run_legacy userAgent (default "" k) options w1)
      as (w2 & ->).
    destruct (Legacy.fetchModels userAgent (default "" k) w1)
      as [[result|e] w3]; intros H; inversion H; subst; [|constructor].
    rewrite processModels_run_legacy. simpl.
    apply omap_Forall. apply pushedLegacy_wellFormed.
Qed.

Lemma prepare_descriptors_well_formed_witness :
  exists infos w',
    prepareLanguageModelChatInformation "ua" {| silent := true |} notCancelled
      namelessEntryHost
    = (Resolved infos, w')
    /\ Forall wellFormedInfo infos
    /\ length infos = 1%nat.
Proof.
  destruct (prepareLanguageModelChatInformation "ua" {| silent := true |}
              notCancelled namelessEntryHost) as [[infos|e] w'] eqn:Hrun;
    [|vm_compute in Hrun; discriminate Hrun].
  exists infos, w'. split; [reflexivity|]. split.
  - destruct (prepare_descriptors_well_formed "ua" {| silent := true |}
                notCancelled namelessEntryHost) as [Hcurrent _].
    exact (Hcurrent infos w' Hrun).
  - vm_compute in Hrun. inversion Hrun. reflexivity.
Defined.

(** A silent call never shows an input box and never writes a secret:
    it leaves the secret storage and the settings as they were, and all it
    does is what a catalogue fetch with the stored key does. Without a
    stored key nothing happens at all. *)
Theorem prepare_silent_frame userAgent (token : CancellationToken)
    (w : World) :
  let run :=
    prepareLanguageModelChatInformation userAgent {| silent := true |} token w in
  secrets (snd run) = secrets w
  /\ modelTypes (snd run) = modelTypes w
  /\ exists events,
       trace (snd run) = trace w ++ events
       /\ Forall (fun e =>
                    exists apiKey,
                      secrets w !! API_KEY = Some apiKey
                      /\ fetchEvent apiKey userAgent e)
            events.
Proof.
  intros run. subst run.
  unfold prepareLanguageModelChatInformation, await. simpl silent.
  rewrite ensureApiKey_silent_run.
  destruct (secrets w !! API_KEY) as [k|] eqn:Hkey; simpl.
  2:{ repeat split. exists []. rewrite app_nil_r. split; auto. }
  destruct (String.eqb k ""); simpl.
  { repeat split. exists []. rewrite app_nil_r. split; auto. }
  unfold loadModels, try_catch, await. simpl silent.
  destruct (fetchModels_events userAgent k w)
    as (events & Hworld & Hall & _).
  destruct (fetchModels userAgent k w) as [[result|e] w1];
    simpl in Hworld; subst w1; simpl;
    (split; [reflexivity|]; split; [reflexivity|]);
    exists events; (split; [reflexivity|]);
    eapply Forall_impl; try exact Hall; intros e' He'; eauto.
Qed.

(** The key a user enters is the key used: without a usable stored key, a
    call that is not silent and whose input box is answered with a text
    that is not blank stores the trimmed text and then requests the
    preferred endpoint with that text as bearer token. *)
Theorem prepare_uses_entered_key userAgent (token : CancellationToken)
    (w : World) entered :
  truthy (secrets w !! API_KEY) = false ->
  inputBox w (trace w) = Some entered ->
  trim entered <> "" ->
  let run :=
    prepareLanguageModelChatInformation userAgent {| silent := false |} token w
  in
  secrets (snd run) !! API_KEY = Some (trim entered)
  /\ exists rest,
       trace (snd run)
       = trace w
         ++ [EvInputBox; EvSecretStore API_KEY (trim entered);
             EvFetch (url (ENDPOINT_CONFIGS (getCurrentModelType w)))
               ("Bearer " +:+ trim entered) userAgent]
         ++ rest.
Proof.
  intros Hnone Hbox Htrim run. subst run.
  rewrite (prepare_with_key userAgent {| silent := false |} token w
             (trim entered) _ (ensureApiKey_prompted w entered Hnone Hbox Htrim)
             Htrim).
  match goal with
  | |- context [fetchModels userAgent (trim entered) ?w1] =>
      destruct (fetchModels_events userAgent (trim entered) w1)
        as (events & Hworld & _ & _ & rest & ->);
      destruct (fetchModels userAgent (trim entered) w1) as [[result|e] w2]
  end; simpl in Hworld; subst w2; simpl.
  - split; [apply lookup_insert_eq|].
    exists rest. rewrite <- !app_assoc. reflexivity.
  - split; [apply lookup_insert_eq|].
    eexists. rewrite <- !app_assoc. simpl. reflexivity.
Qed.

Lemma prepare_uses_entered_key_witness :
  let w :=
    promptHost
      (scripted [jsonResponse 200 "OK" (catalog [entry "gpt-4o" "GPT-4o"])])
      None (Some " sk-123 ") in
  let run :=
    prepareLanguageModelChatInformation "ua" {| silent := false |}
      notCancelled w in
  secrets (snd run) !! API_KEY = Some "sk-123"
  /\ fetches (trace (snd run))
     = [EvFetch "https://nano-gpt.com/api/v1/models?detailed=true"
          "Bearer sk-123" "ua"].
Proof.
  intros w run.
  destruct (prepare_uses_entered_key "ua" notCancelled w " sk-123 "
              eq_refl eq_refl ltac:(discriminate)) as (Hstored & _).
  split; [exact Hstored|]. vm_compute. reflexivity.
Defined.

(** ** The single-endpoint service *)

(** The single-endpoint [fetchModels] makes exactly one request, whatever
    the reply: it never retries and never waits. Besides the request it
    shows at most one message, and only when it rejects. *)
Theorem legacy_fetch_single_request userAgent apiKey (w : World) :
  let run := Legacy.fetchModels userAgent apiKey w in
  exists notes,
    snd run
    = extend w
        (EvFetch (BASE_URL +:+ "/models?detailed=true") ("Bearer " +:+ apiKey)
           userAgent :: notes)
    /\ (notes = []
        \/ exists text,
             notes = [EvInformationMessage text]
             /\ exists e, fst run = Rejected e).
Proof.
  intros run. subst run. unfold Legacy.fetchModels, await, fetch.
  destruct (network w (trace w) (BASE_URL +:+ "/models?detailed=true"))
    as [reason|response].
  { exists []. split; [reflexivity|left; reflexivity]. }
  destruct (negb (ok response)).
  { eexists. unfold showInformationMessage, throw. simpl. split.
    - unfold record, extend. simpl. rewrite <- app_assoc. reflexivity.
    - right. eauto. }
  destruct (bodyJson response) as [reason|raw].
  { exists []. split; [reflexivity|left; reflexivity]. }
  destruct (Zod.parse NanoGPTModelsResponseSchema raw) as [parsed|path].
  - exists []. destruct (data parsed); (split; [reflexivity|left; reflexivity]).
  - eexists. unfold showInformationMessage, throw. simpl. split.
    + unfold record, extend. simpl. rewrite <- app_assoc. reflexivity.
    + right. eauto.
Qed.

(** Against the single-endpoint service, a 2xx response whose [data] array
    holds an entry without a string [id] is rejected with the error
    "Invalid API response format from NanoGPT: ...", after the user has
    been told that the model data could not be parsed. *)
Theorem legacy_missing_id_rejected userAgent apiKey (w : World)
    response fields items raw :
  network w (trace w) (BASE_URL +:+ "/models?detailed=true")
  = FetchResolves response ->
  ok response = true ->
  bodyJson response = inr (JObject fields) ->
  assoc "data" fields = Some (JArray items) ->
  In raw items ->
  lacksId raw ->
  exists path,
    fst (Legacy.fetchModels userAgent apiKey w)
    = Rejected
        (ErrorObj
           ("Invalid API response format from NanoGPT: " +:+ Zod.message path))
    /\ notifications (trace (snd (Legacy.fetchModels userAgent apiKey w)))
       = notifications (trace w)
         ++ [EvInformationMessage
               "Failed to parse model data from NanoGPT API. The API response format may have changed. Please try again later."].
Proof.
  intros Hreply Hok Hbody Hdata Hin Hlacks.
  destruct (lacksId_rejected fields items raw Hdata Hin Hlacks)
    as (path & Hparse).
  exists path. unfold Legacy.fetchModels, await, fetch.
  rewrite Hreply, Hok, Hbody, Hparse. simpl. split; [reflexivity|].
  rewrite !notifications_app. simpl. rewrite app_nil_r. reflexivity.
Qed.

Lemma legacy_missing_id_rejected_witness :
  exists path,
    fst (Legacy.fetchModels "ua" "k"
           (host (scripted [jsonResponse 200 "OK" missingIdCatalog])
              (Some "k") None))
    = Rejected
        (ErrorObj
           ("Invalid API response format from NanoGPT: " +:+ Zod.message path)).
Proof.
  destruct (legacy_missing_id_rejected "ua" "k"
              (host (scripted [jsonResponse 200 "OK" missingIdCatalog])
                 (Some "k") None)
              {| status := 200; statusText := "OK"; bodyText := "";
                 bodyJson := inr missingIdCatalog |}
              [("object", JString "list");
               ("data",
                JArray [entry "gpt-4o" "GPT-4o";
                        JObject [("object", JString "model");
                                 ("name", JString "x")]])]
              [entry "gpt-4o" "GPT-4o";
               JObject [("object", JString "model"); ("name", JString "x")]]
              (JObject [("object", JString "model"); ("name", JString "x")])
              eq_refl eq_refl eq_refl eq_refl
              ltac:(right; left; reflexivity)
              ltac:(intros f s Hf; inversion Hf; subst f; discriminate))
    as (path & Hrun & _).
  exists path. exact Hrun.
Defined.

(** Against the single-endpoint service, a response with a status outside
    200-299 is told to the user once by [fetchModels], also when the call
    is silent, and a second time by a call that is not silent; either call
    resolves with the empty list after the one request. *)
Theorem legacy_http_failure_messages userAgent (token : CancellationToken)
    (w : World) apiKey response :
  secrets w !! API_KEY = Some apiKey ->
  apiKey <> "" ->
  network w (trace w) (BASE_URL +:+ "/models?detailed=true")
  = FetchResolves response ->
  ok response = false ->
  let request :=
    EvFetch (BASE_URL +:+ "/models?detailed=true") ("Bearer " +:+ apiKey)
      userAgent in
  exists told quoted,
    Legacy.prepareLanguageModelChatInformation userAgent {| silent := true |}
      token w
    = (Resolved [], extend w [request; EvInformationMessage told])
    /\ Legacy.prepareLanguageModelChatInformation userAgent
         {| silent := false |} token w
       = (Resolved [],
          extend w [request; EvInformationMessage told;
                    EvInformationMessage quoted]).
Proof.
  intros Hkey Hne Hreply Hbad request.
  assert (exists m told,
            Legacy.fetchModels userAgent apiKey w
            = (Rejected (ErrorObj m),
               extend w [request; EvInformationMessage told]))
    as (m & told & Hfetch).
  { unfold Legacy.fetchModels, await, fetch.
    rewrite Hreply, Hbad. cbn [negb].
    unfold showInformationMessage, throw. do 2 eexists.
    unfold record, extend. cbn [trace network inputBox modelTypes secrets].
    rewrite <- app_assoc. reflexivity. }
  exists told. eexists.
  unfold Legacy.prepareLanguageModelChatInformation, await.
  change Legacy.ensureApiKey with ensureApiKey.
  rewrite !(ensureApiKey_stored _ w apiKey Hkey Hne).
  rewrite (truthy_Some_nonempty _ Hne). cbn [negb].
  change (default "" (Some apiKey)) with apiKey.
  unfold Legacy.loadModels, try_catch, await. rewrite Hfetch.
  cbn [silent negb]. unfold showInformationMessage, resolve. split.
  - reflexivity.
  - unfold record, extend. cbn [trace network inputBox modelTypes secrets].
    rewrite <- app_assoc. reflexivity.
Qed.

Lemma legacy_http_failure_messages_witness :
  length (notifications
            (trace (snd (Legacy.prepareLanguageModelChatInformation "ua"
                           {| silent := true |} notCancelled
                           unauthorizedHost))))
  = 1%nat
  /\ length (notifications
               (trace (snd (Legacy.prepareLanguageModelChatInformation "ua"
                              {| silent := false |} notCancelled
                              unauthorizedHost))))
     = 2%nat.
Proof.
  destruct (legacy_http_failure_messages "ua" notCancelled unauthorizedHost
              "k"
              {| status := 401; statusText := "Unauthorized";
                 bodyText := "Invalid API key";
                 bodyJson := inl "Unexpected token in JSON" |}
              eq_refl ltac:(discriminate) eq_refl eq_refl)
    as (told & quoted & Hsilent & Hloud).
  rewrite Hsilent, Hloud. split; reflexivity.
Defined.

(** ** Per-model temperatures *)

Lemma readProperty_none {Num : Type} (setting : option (gmap string Num)) key :
  setting <> None \/ inherited key = false ->
  readProperty (default ∅ setting) key = getModelTemperature setting key.
Proof.
  intros Hcase. destruct setting as [m|]; [reflexivity|].
  destruct Hcase as [Hset|Hown]; [congruence|].
  unfold readProperty. simpl. rewrite lookup_empty, Hown. reflexivity.
Qed.

(** Setting and reading back, on the plain object the code uses. A
    temperature set for a model id other than [__proto__] is the one read
    for it, from any state of the setting; after a reset, an id that names
    no member of [Object.prototype] reads [undefined]; a change for one
    id never shows for another (when the setting was unset, for the ids
    that name no such member); and a temperature assigned under the id
    [__proto__], which the object does not hold as its own, is not
    recorded at all. *)
Theorem temperature_round_trip {Num : Type}
    (setting : option (gmap string Num)) (modelId : string) :
  (forall t,
     modelId <> "__proto__" ->
     getModelTemperature (setModelTemperature setting modelId (Some t)) modelId
     = ReadValue t)
  /\ (inherited modelId = false ->
      getModelTemperature (setModelTemperature setting modelId None) modelId
      = ReadUndefined)
  /\ (forall value other,
        other <> modelId ->
        setting <> None \/ inherited other = false ->
        getModelTemperature (setModelTemperature setting modelId value) other
        = getModelTemperature setting other)
  /\ (forall t,
        default ∅ setting !! "__proto__" = None ->
        setModelTemperature setting "__proto__" (Some t)
        = Some (default ∅ setting)).
Proof.
  unfold setModelTemperature. cbn [getModelTemperature].
  split; [|split; [|split]].
  - intros t Hne. unfold writeProperty.
    apply String.eqb_neq in Hne. rewrite Hne. cbn [andb].
    unfold readProperty. rewrite lookup_insert_eq. reflexivity.
  - intros Hown. unfold readProperty. rewrite lookup_delete_eq, Hown.
    reflexivity.
  - intros value other Hne Hcase.
    rewrite <- (readProperty_none setting other Hcase).
    destruct value as [t|].
    + unfold writeProperty.
      destruct (String.eqb modelId "__proto__"
                && negb (bool_decide (is_Some (default ∅ setting !! modelId))));
        [reflexivity|].
      unfold readProperty. rewrite lookup_insert_ne by auto. reflexivity.
    + unfold readProperty. rewrite lookup_delete_ne by auto. reflexivity.
  - intros t Hnone. unfold writeProperty. rewrite Hnone.
    rewrite bool_decide_eq_false_2 by (intros [x Hx]; discriminate Hx).
    reflexivity.
Qed.

Lemma temperature_round_trip_witness :
  let setting : option (gmap string Z) := Some {[ "gpt-4o" := 7 ]} in
  getModelTemperature (setModelTemperature setting "gpt-4o-mini" (Some 5))
    "gpt-4o"
  = ReadValue 7
  /\ getModelTemperature (setModelTemperature setting "gpt-4o-mini" (Some 5))
       "gpt-4o-mini"
     = ReadValue 5
  /\ getModelTemperature (setModelTemperature setting "gpt-4o" None) "gpt-4o"
     = ReadUndefined
  /\ getModelTemperature (setModelTemperature setting "__proto__" (Some 5))
       "__proto__"
     = ReadInherited "__proto__".
Proof.
  intros setting.
  destruct (temperature_round_trip setting "gpt-4o-mini")
    as (Hset & _ & Hframe & _).
  destruct (temperature_round_trip setting "gpt-4o") as (_ & Hreset & _ & _).
  destruct (temperature_round_trip setting "__proto__") as (_ & _ & _ & Hproto).
  rewrite (Hframe (Some 5) "gpt-4o" ltac:(discriminate)
             ltac:(left; discriminate)).
  rewrite (Hset 5 ltac:(discriminate)), (Hreset eq_refl).
  rewrite (Hproto 5 eq_refl).
  repeat split; reflexivity.
Defined.

(** ** Choosing the model type *)

(** Once the user has picked a model type, the next resolution starts
    with that type's endpoint, the one whose URL the confirmation message
    shows; the secret storage is untouched. A dismissed pick changes
    nothing. *)
Theorem configure_then_fetch (t : ModelType) userAgent apiKey (w : World) :
  let w1 := snd (configureModelTypes (Some t) w) in
  configureModelTypes None w = (Resolved tt, w)
  /\ trace w1
     = trace w
       ++ [EvInformationMessage
             ("Model type set to " +:+ modelTypeLabel t
              +:+ ". API endpoint: " +:+ url (ENDPOINT_CONFIGS t))]
  /\ secrets w1 = secrets w
  /\ getCurrentModelType w1 = t
  /\ exists rest,
       trace (snd (fetchModels userAgent apiKey w1))
       = trace w1
         ++ EvFetch (url (ENDPOINT_CONFIGS t)) ("Bearer " +:+ apiKey)
              userAgent :: rest.
Proof.
  intros w1. subst w1. repeat split.
  match goal with
  | |- context [fetchModels userAgent apiKey ?w1] =>
      destruct (fetchModels_events userAgent apiKey w1)
        as (events & -> & _ & _ & rest & ->)
  end.
  exists rest. reflexivity.
Qed.

(** ** The "Set API Key" action *)

(** What the action leaves behind: a dismissed box changes nothing; a text
    that is not blank is stored trimmed, so that the provider then finds
    that key without asking; a blank text clears the key, so that a silent
    provider call then resolves with the empty list without any request.
    The user is told "saved" or "cleared". *)
Theorem setApiKey_round_trip (w : World) :
  (inputBox w (trace w) = None ->
   setApiKey w = (Resolved tt, record EvInputBox w))
  /\ (forall entered silent,
        inputBox w (trace w) = Some entered ->
        trim entered <> "" ->
        let w1 := snd (setApiKey w) in
        trace w1
        = trace w ++ [EvInputBox; EvSecretStore API_KEY (trim entered);
                      EvInformationMessage "NanoGPT API key saved."]
        /\ ensureApiKey silent w1 = (Resolved (Some (trim entered)), w1))
  /\ (forall entered userAgent token,
        inputBox w (trace w) = Some entered ->
        trim entered = "" ->
        let w1 := snd (setApiKey w) in
        trace w1
        = trace w ++ [EvInputBox;
                      EvInformationMessage "NanoGPT API key cleared."]
        /\ secrets w1 !! API_KEY = None
        /\ prepareLanguageModelChatInformation userAgent {| silent := true |}
             token w1
           = (Resolved [], w1)).
Proof.
  unfold setApiKey, await, secrets_get, showInputBox.
  split; [|split].
  - intros ->. reflexivity.
  - intros entered silent -> Htrim.
    apply String.eqb_neq in Htrim as Hneq. rewrite Hneq. simpl. split.
    + rewrite <- !app_assoc. reflexivity.
    + apply ensureApiKey_stored; [|exact Htrim].
      simpl. apply lookup_insert_eq.
  - intros entered userAgent token -> Hblank.
    rewrite Hblank. simpl. split; [|split].
    + rewrite <- !app_assoc. reflexivity.
    + apply lookup_delete_eq.
    + unfold prepareLanguageModelChatInformation, await. simpl silent.
      rewrite ensureApiKey_silent_run. unfold record. cbn [secrets].
      rewrite lookup_delete_eq. reflexivity.
Qed.

Lemma setApiKey_round_trip_witness :
  let saved := snd (setApiKey (promptHost (scripted []) None (Some " sk-9 "))) in
  let cleared :=
    snd (setApiKey (promptHost (scripted []) (Some "old") (Some "  "))) in
  ensureApiKey true saved = (Resolved (Some "sk-9"), saved)
  /\ secrets cleared !! API_KEY = None.
Proof.
  intros saved cleared.
  destruct (setApiKey_round_trip (promptHost (scripted []) None (Some " sk-9 ")))
    as (_ & Hsaved & _).
  destruct (setApiKey_round_trip
              (promptHost (scripted []) (Some "old") (Some "  ")))
    as (_ & _ & Hcleared).
  split.
  - exact (proj2 (Hsaved " sk-9 " true eq_refl ltac:(discriminate))).
  - exact (proj1 (proj2 (Hcleared "  " "ua" notCancelled eq_refl eq_refl))).
Defined.

(** ** The settings schema *)

Lemma zod_default_sound {A} (inner : Zod.Schema A) d path v a :
  Zod.default inner d path v = Zod.Ok a ->
  a = d \/ exists raw, v = Some raw /\ inner path (Some raw) = Zod.Ok a.
Proof.
  unfold Zod.default. destruct v as [raw|]; intros H.
  - right. eauto.
  - left. inversion H. reflexivity.
Qed.

Lemma zod_enum_sound values path v s :
  zod_enum values path v = Zod.Ok s -> In s values.
Proof.
  unfold zod_enum, Zod.literals.
  destruct v as [[| | |text| |]|]; try discriminate.
  destruct (find _ _) as [[k a]|] eqn:Hfind; [|discriminate].
  intros H. inversion H; subst. apply find_some in Hfind.
  destruct Hfind as [Hin _]. apply in_map_iff in Hin.
  destruct Hin as (x & Hx & Hin). inversion Hx; subst. exact Hin.
Qed.

Lemma zod_number_between_sound lo hi path v n :
  zod_number_between lo hi path v = Zod.Ok n -> lo <= n <= hi.
Proof.
  unfold zod_number_between, Zod.number.
  destruct v as [[| |k| | |]|]; try discriminate. simpl.
  destruct ((lo <=? k) && (k <=? hi)) eqn:Hrange; [|discriminate].
  intros H. inversion H; subst. lia.
Qed.

(** Whatever the settings schema accepts is within bounds: the memory
    duration lies between 1 and 365 days, the effort is low, medium or
    high, the search mode is standard or deep, and the provider is openai,
    anthropic or google - whether the value was given or defaulted. *)
Theorem configuration_schema_bounds (raw : Json) settings :
  Zod.parse NanoGPTConfigurationSchema raw = Zod.Ok settings ->
  1 <= defaultDays (memorySettings settings) <= 365
  /\ In (defaultEffort (reasoningSettings settings)) ["low"; "medium"; "high"]
  /\ In (defaultMode (searchSettings settings)) ["standard"; "deep"]
  /\ In (defaultProvider (byokSettings settings))
       ["openai"; "anthropic"; "google"].
Proof.
  unfold Zod.parse, NanoGPTConfigurationSchema, Zod.object.
  destruct raw as [| | | | |fields]; try discriminate.
  intros H.
  zod_step H. rename E into Er. zod_step H. rename E into Em.
  zod_step H. rename E into Es. zod_step H. rename E into Eb.
  inversion H; subst settings; clear H. simpl.
  unfold Zod.field in Er, Em, Es, Eb.
  apply zod_default_sound in Er, Em, Es, Eb.
  repeat split.
  - destruct Em as [->|(v & _ & Em)]; [simpl; lia|].
    unfold MemorySettingsSchema, Zod.object in Em.
    destruct v as [| | | | |f]; try discriminate.
    zod_step Em. zod_step Em. inversion Em; subst. simpl.
    unfold Zod.field in E0. apply zod_default_sound in E0.
    destruct E0 as [->|(v & _ & E0)]; [lia|].
    apply zod_number_between_sound in E0. lia.
  - destruct Em as [->|(v & _ & Em)]; [simpl; lia|].
    unfold MemorySettingsSchema, Zod.object in Em.
    destruct v as [| | | | |f]; try discriminate.
    zod_step Em. zod_step Em. inversion Em; subst. simpl.
    unfold Zod.field in E0. apply zod_default_sound in E0.
    destruct E0 as [->|(v & _ & E0)]; [lia|].
    apply zod_number_between_sound in E0. lia.
  - destruct Er as [->|(v & _ & Er)]; [simpl; tauto|].
    unfold ReasoningSettingsSchema, Zod.object in Er.
    destruct v as [| | | | |f]; try discriminate.
    zod_step Er. zod_step Er. inversion Er; subst. simpl.
    unfold Zod.field in E0. apply zod_default_sound in E0.
    destruct E0 as [->|(v & _ & E0)]; [simpl; tauto|].
    apply zod_enum_sound in E0. exact E0.
  - destruct Es as [->|(v & _ & Es)]; [simpl; tauto|].
    unfold SearchSettingsSchema, Zod.object in Es.
    destruct v as [| | | | |f]; try discriminate.
    zod_step Es. zod_step Es. inversion Es; subst. simpl.
    unfold Zod.field in E0. apply zod_default_sound in E0.
    destruct E0 as [->|(v & _ & E0)]; [simpl; tauto|].
    apply zod_enum_sound in E0. exact E0.
  - destruct Eb as [->|(v & _ & Eb)]; [simpl; tauto|].
    unfold ByokSettingsSchema, Zod.object in Eb.
    destruct v as [| | | | |f]; try discriminate.
    zod_step Eb. zod_step Eb. inversion Eb; subst. simpl.
    unfold Zod.field in E0. apply zod_default_sound in E0.
    destruct E0 as [->|(v & _ & E0)]; [simpl; tauto|].
    apply zod_enum_sound in E0. exact E0.
Qed.

Lemma configuration_schema_bounds_witness :
  exists settings,
    Zod.parse NanoGPTConfigurationSchema
      (JObject [("memory", JObject [("defaultDays", JNumber 90)])])
    = Zod.Ok settings
    /\ 1 <= defaultDays (memorySettings settings) <= 365
    /\ Zod.parse NanoGPTConfigurationSchema
         (JObject [("memory", JObject [("defaultDays", JNumber 400)])])
       = Zod.Fail ["memory"; "defaultDays"].
Proof.
  destruct (Zod.parse NanoGPTConfigurationSchema
              (JObject [("memory", JObject [("defaultDays", JNumber 90)])]))
    as [settings|path] eqn:Hparse; [|vm_compute in Hparse; discriminate Hparse].
  exists settings. split; [reflexivity|]. split.
  - exact (proj1 (configuration_schema_bounds _ _ Hparse)).
  - reflexivity.
Defined.

(** * The order of a resolution, on the trace *)

Lemma categoryUrl_config c : url (ENDPOINT_CONFIGS c) = categoryUrl c.
Proof. destruct c; reflexivity. Qed.

Lemma categoryLabel_config c : displayName (ENDPOINT_CONFIGS c) = categoryLabel c.
Proof. destruct c; reflexivity. Qed.

Lemma fetchModelsFromEndpoint_attempts apiKey userAgent c w :
  exists attempts : nat,
    (1 <= attempts <= 3)%nat
    /\ snd (fetchModelsFromEndpoint apiKey (ENDPOINT_CONFIGS c) userAgent w)
       = extend w (attemptEvents (categoryRequest apiKey userAgent c) attempts)
    /\ (forall e,
          fst (fetchModelsFromEndpoint apiKey (ENDPOINT_CONFIGS c) userAgent w)
          = Rejected e ->
          attempts = 3%nat).
Proof.
  unfold categoryRequest. rewrite <- categoryUrl_config.
  rewrite fetchModelsFromEndpoint_run. cbv zeta.
  repeat match goal with
         | |- context [match ?x with inl _ => _ | inr _ => _ end] => destruct x
         end; simpl fst; simpl snd.
  all: first
         [ exists 1%nat; split; [lia|]; split; [reflexivity|discriminate]
         | exists 2%nat; split; [lia|]; split; [|discriminate];
           unfold record, extend; simpl; rewrite <- !app_assoc; reflexivity
         | exists 3%nat; split; [lia|]; split; [|reflexivity];
           unfold record, extend; simpl; rewrite <- !app_assoc; reflexivity ].
Qed.

(** A resolution over [categories], block by block: the categories that
    failed each left their three requests; the one that succeeded, if
    any, left the requests of its attempts and nothing follows it. *)
Lemma attemptInOrder_blocks apiKey userAgent categories w :
  match attemptInOrder apiKey userAgent categories w with
  | (failures, Some (c, result), w') =>
      exists failed rest (attempts : nat),
        categories = failed ++ c :: rest
        /\ length failures = length failed
        /\ (1 <= attempts <= 3)%nat
        /\ w' = extend w
                  (failedBlocks apiKey userAgent failed
                   ++ attemptEvents (categoryRequest apiKey userAgent c)
                        attempts)
        /\ models result <> []
        /\ Forall (fun m => category m = c) (models result)
        /\ result_endpoint result = categoryUrl c
  | (failures, None, w') =>
      length failures = length categories
      /\ w' = extend w (failedBlocks apiKey userAgent categories)
  end.
Proof.
  revert w. induction categories as [|c0 rest IH]; intros w.
  - simpl. split; [reflexivity|]. symmetry. apply extend_nil.
  - simpl.
    destruct (fetchModelsFromEndpoint_attempts apiKey userAgent c0 w)
      as (n & Hn & Hworld & Hthree).
    destruct (fetchModelsFromEndpoint apiKey (ENDPOINT_CONFIGS c0) userAgent w)
      as [[result|e] w1] eqn:Hrun; simpl in Hworld, Hthree; subst w1.
    + destruct (fetchModelsFromEndpoint_tags _ _ _ _ _ _ Hrun)
        as (Hsome & Hurl & Htags).
      rewrite category_of_config in Htags. rewrite categoryUrl_config in Hurl.
      exists [], rest, n. simpl. repeat split; auto; lia.
    + rewrite (Hthree e eq_refl) in *.
      specialize (IH (extend w
                        (attemptEvents (categoryRequest apiKey userAgent c0) 3))).
      destruct (attemptInOrder apiKey userAgent rest _)
        as [[failures found] w2].
      destruct found as [[c result]|].
      * destruct IH as (failed & rest' & m & -> & Hlen & Hm & -> & Hsome
                        & Htags & Hurl).
        exists (c0 :: failed), rest', m. simpl.
        split; [reflexivity|]. split; [lia|]. split; [exact Hm|].
        split; [|auto].
        rewrite extend_extend. unfold failedBlocks. simpl.
        rewrite <- ?app_assoc. reflexivity.
      * destruct IH as (Hlen & ->). split; [simpl; lia|].
        rewrite extend_extend. reflexivity.
Qed.

(** C3. For every preferred category (the setting, or "all" when it is
    not set), [fetchModels] attempts the preferred category first and then
    the categories of the registry order (all, premium, subscription)
    other than the preferred one, each once through its retry budget, and
    stops at the first that succeeds. On the trace: the categories of the
    order that come before the one that succeeds each get their three
    requests (with the timers of 1000 and 2000 ms), then the one that
    succeeds gets the one to three requests of its attempts, nothing is
    requested after it, and the call resolves with its catalogue, tagged
    with that category (one notice follows when it is not the preferred
    one); when none succeeds, every category of the order got its three
    requests, in that order, and the call rejects after one error message.
    This is the resolution of the specification, [attemptInOrder] over
    that order, up to the messages. *)
Theorem fetchModels_resolution_order userAgent apiKey (w : World) :
  let preferred := match modelTypes w with Some t => t | None => all end in
  let order :=
    preferred
    :: List.filter (fun c => negb (ModelType_eqb c preferred))
         [all; premium; subscription] in
  let resolution := attemptInOrder apiKey userAgent order w in
  let run := fetchModels userAgent apiKey w in
  ((exists failed c rest (attempts : nat) result,
      order = failed ++ c :: rest
      /\ (1 <= attempts <= 3)%nat
      /\ fst run = Resolved result
      /\ models result <> []
      /\ Forall (fun m => category m = c) (models result)
      /\ result_endpoint result = categoryUrl c
      /\ trace (snd run)
         = trace w
           ++ failedBlocks apiKey userAgent failed
           ++ attemptEvents (categoryRequest apiKey userAgent c) attempts
           ++ match failed with
              | [] => []
              | _ :: _ =>
                  [EvInformationMessage
                     ("Primary endpoint unavailable. Using "
                      +:+ categoryLabel c +:+ " instead.")]
              end)
   \/ (exists e text,
         fst run = Rejected e
         /\ trace (snd run)
            = trace w ++ failedBlocks apiKey userAgent order
              ++ [EvErrorMessage text]))
  /\ (exists notes,
        trace (snd run) = trace (snd resolution) ++ notes
        /\ notifications notes = notes)
  /\ match snd (fst resolution) with
     | Some (_, result) => fst run = Resolved result
     | None => exists e, fst run = Rejected e
     end.
Proof.
  intros preferred order resolution run.
  assert (preferred = getCurrentModelType w) as Hpreferred by reflexivity.
  subst run. rewrite fetchModels_run. cbv zeta. rewrite <- Hpreferred.
  change (resolutionOrder preferred) with order. fold resolution.
  pose proof (attemptInOrder_blocks apiKey userAgent order w) as Hblocks.
  fold resolution in Hblocks.
  destruct resolution as [[failures found] w'].
  destruct found as [[c result]|].
  - destruct Hblocks as (failed & rest & n & Horder & Hlen & Hn & -> & Hsome
                         & Htags & Hurl).
    destruct failures as [|e failures]; destruct failed as [|c0 failed];
      try discriminate Hlen; simpl fst; simpl snd.
    + split; [|split; [exists []; rewrite app_nil_r; auto|reflexivity]].
      left. exists [], c, rest, n, result.
      repeat split; try assumption; try lia.
      rewrite app_nil_r. reflexivity.
    + split; [|split; [eexists; split; [reflexivity|reflexivity]|reflexivity]].
      left. exists (c0 :: failed), c, rest, n, result.
      repeat split; try assumption; try lia.
      unfold fallbackNotice.
      rewrite trace_record, trace_extend, categoryLabel_config.
      unfold failedBlocks. cbn [List.concat List.map attemptEvents app].
      rewrite <- ?app_assoc. cbn [app]. rewrite <- ?app_assoc. reflexivity.
  - destruct Hblocks as (Hlen & ->).
    assert (forall text,
              trace (record (EvErrorMessage text)
                       (extend w (failedBlocks apiKey userAgent order)))
              = trace w ++ failedBlocks apiKey userAgent order
                ++ [EvErrorMessage text]) as Htrace.
    { intros text. rewrite trace_record, trace_extend, <- app_assoc.
      reflexivity. }
    destruct failures; simpl fst; simpl snd;
      (split; [right; do 2 eexists; split; [reflexivity|apply Htrace]|]);
      (split; [eexists; split; [reflexivity|reflexivity]|eauto]).
Qed.

(** C3 on a host whose preferred category is premium, where the premium
    endpoint keeps failing and the others answer: three requests to the
    premium endpoint, then one to the endpoint of "all", which is first in
    the registry order, and nothing to the subscription endpoint. *)
Lemma fetchModels_resolution_order_witness :
  let w :=
    host (byUrl (fun u =>
            if String.eqb u MODEL_ENDPOINTS.premium
            then errorResponse 500 "Internal Server Error" ""
            else jsonResponse 200 "OK" (catalog [entry "gpt-4o" "GPT-4o"])))
      (Some "k") (Some premium) in
  exists result notice,
    fst (fetchModels "ua" "k" w) = Resolved result
    /\ trace (snd (fetchModels "ua" "k" w))
       = [categoryRequest "k" "ua" premium; EvTimeout 1000;
          categoryRequest "k" "ua" premium; EvTimeout 2000;
          categoryRequest "k" "ua" premium;
          categoryRequest "k" "ua" all;
          EvInformationMessage notice].
Proof.
  intros w.
  destruct (fetchModels_resolution_order "ua" "k" w)
    as [[(failed & c & rest & n & result & Horder & Hn & Hrun & _ & _ & Hurl
          & Htrace)
        |(e & text & Hrun & _)] _];
    [|vm_compute in Hrun; discriminate Hrun].
  assert (c = all) as ->.
  { assert (result_endpoint result = categoryUrl all) as Hall.
    { vm_compute in Hrun. inversion Hrun. reflexivity. }
    rewrite Hall in Hurl.
    destruct c; [reflexivity|discriminate Hurl|discriminate Hurl]. }
  assert (failed = [premium]) as ->.
  { cbv zeta in Horder. simpl in Horder.
    destruct failed as [|c1 [|c2 [|c3 [|c4 failed]]]]; simpl in Horder;
      inversion Horder; subst; try reflexivity;
      try (destruct failed; discriminate). }
  assert (n = 1%nat) as ->.
  { apply (f_equal (@length Event)) in Htrace.
    rewrite !length_app in Htrace.
    assert (length (trace (snd (fetchModels "ua" "k" w))) = 7%nat) as Hseven
      by (vm_compute; reflexivity).
    rewrite Hseven in Htrace. simpl in Htrace.
    destruct n as [|[|[|[|n]]]]; simpl in Htrace; lia. }
  exists result. eexists. split; [exact Hrun|].
  rewrite Htrace. reflexivity.
Defined.
